(** * Construction cost breakdown automation: a shallow embedding

    The development follows [construction_cost_automation.py]: the class
    [ConstructionCostAutomation] with its three stages

      - [extract_text_from_file] (and the three private sub-extractors),
      - [parse_with_ai],
      - [populate_template].

    Python values are embedded as the inductive type [pyval]; exceptions are
    explicit ([outcome]); the worksheet of openpyxl is a finite map from
    [(row, column)] to cells, with openpyxl's habit of creating a cell on
    first access written out.  Calls that leave the repository (the PDF, OCR
    and pandas readers, the Gemini client, [json.loads], the file system)
    are section variables or fields of an environment record: every theorem
    holds for whatever they return.  [print] calls have no effect on the
    results and are left out, except where formatting a value can raise. *)

From Stdlib Require Import ZArith NArith List String Ascii Bool Lia.
From Stdlib Require Import Floats.SpecFloat.
From stdpp Require Import base option list gmap strings.

Local Open Scope string_scope.
Set Warnings "-register-all".

(** ** Python values and exceptions *)

Module Py.

(** Python's [float] is IEEE binary64; [spec_float] at precision 53 and
    maximal exponent 1024 is its specification. *)
Definition pyfloat := spec_float.

Definition prec : Z := 53.
Definition emax : Z := 1024.

(** The values that [json.loads] produces and that a caller may put into a
    line-item dictionary.  A dictionary is an association list; lookup takes
    the first binding of a key. *)
Inductive pyval : Type :=
  | PNone
  | PBool (b : bool)
  | PInt (z : Z)
  | PFloat (f : pyfloat)
  | PStr (s : string)
  | PList (l : list pyval)
  | PDict (d : list (string * pyval)).

(** The exception classes the source tells apart.  All of them derive from
    [Exception]; [JSONDecodeError] also derives from [ValueError]. *)
Inductive exn : Type :=
  | FileNotFoundError
  | SameFileError
  | PermissionError
  | ValueError
  | TypeError
  | OverflowError
  | KeyError
  | NameError
  | ImportError
  | JSONDecodeError
  | LibraryError.

Inductive outcome (A : Type) : Type :=
  | Ok (a : A)
  | Raise (e : exn).
Arguments Ok {A} a.
Arguments Raise {A} e.

Definition bind {A B : Type} (m : outcome A) (k : A -> outcome B) : outcome B :=
  match m with
  | Ok a => k a
  | Raise e => Raise e
  end.

(** [except (ValueError, TypeError)]: the classes caught by the inner handler
    of [parse_with_ai]. *)
Definition is_value_or_type_error (e : exn) : bool :=
  match e with
  | ValueError | TypeError | JSONDecodeError => true
  | _ => false
  end.

(** *** Strings

    Strings are sequences of ASCII characters; code points from 128 on are
    neither whitespace nor letters here. *)

(** Whitespace of [str.strip] and of the regular-expression class [\s]. *)
Definition is_space (c : ascii) : bool :=
  let n := nat_of_ascii c in
  (((9 <=? n) && (n <=? 13)) || ((28 <=? n) && (n <=? 32)))%nat.

Fixpoint lstrip (s : string) : string :=
  match s with
  | String c s' => if is_space c then lstrip s' else s
  | EmptyString => EmptyString
  end.

(** [rstrip] keeps a character when it is not whitespace or when something
    remains to its right. *)
Fixpoint rstrip (s : string) : string :=
  match s with
  | String c s' =>
      match rstrip s' with
      | EmptyString => if is_space c then EmptyString else String c EmptyString
      | r => String c r
      end
  | EmptyString => EmptyString
  end.

Definition strip (s : string) : string := rstrip (lstrip s).

Definition lower_char (c : ascii) : ascii :=
  let n := nat_of_ascii c in
  if ((65 <=? n) && (n <=? 90))%nat then ascii_of_nat (n + 32) else c.

Fixpoint lower (s : string) : string :=
  match s with
  | String c s' => String (lower_char c) (lower s')
  | EmptyString => EmptyString
  end.

(** [needle in hay] on strings. *)
Fixpoint contains (needle hay : string) : bool :=
  String.prefix needle hay ||
  match hay with
  | String _ hay' => contains needle hay'
  | EmptyString => false
  end.

(** [d[key]] and [key in d]. *)
Fixpoint dict_get (d : list (string * pyval)) (key : string) : option pyval :=
  match d with
  | (k, v) :: d' => if String.eqb k key then Some v else dict_get d' key
  | [] => None
  end.

Definition getitem (v : pyval) (key : string) : outcome pyval :=
  match v with
  | PDict d => match dict_get d key with
               | Some x => Ok x
               | None => Raise KeyError
               end
  | _ => Raise TypeError
  end.

(** *** [float(x)] *)

Definition float_of_Z (z : Z) : pyfloat := binary_normalize prec emax z 0 false.

Definition is_infinite (f : pyfloat) : bool :=
  match f with S754_infinity _ => true | _ => false end.

Definition is_finite (f : pyfloat) : bool :=
  match f with S754_zero _ | S754_finite _ _ _ => true | _ => false end.

(** [f >= 0]: false on NaN and on negative numbers, true on both zeros. *)
Definition is_nonnegative (f : pyfloat) : bool :=
  match f with
  | S754_zero _ => true
  | S754_infinity s | S754_finite s _ _ => negb s
  | S754_nan => false
  end.

(** A decimal [m * 10^e] rounded to nearest-even.  For a negative exponent
    the quotient is taken with at least 64 significant bits and a sticky
    last bit, which rounds like the exact value. *)
Definition float_of_decimal (neg : bool) (m : positive) (e : Z) : pyfloat :=
  if (0 <=? e)%Z then
    match (Z.pos m * 10 ^ e)%Z with
    | Z.pos n => binary_round prec emax neg n 0
    | _ => S754_zero neg
    end
  else
    let d := (10 ^ (- e))%Z in
    let s := Z.max 0 (64 + Z.log2 d - Z.log2 (Z.pos m)) in
    let n := (Z.pos m * 2 ^ s)%Z in
    let q := (2 * (n / d) + (if (n mod d =? 0)%Z then 0 else 1))%Z in
    match q with
    | Z.pos q' => binary_round prec emax neg q' (- s - 1)
    | _ => S754_zero neg
    end.

Definition is_digit (c : ascii) : bool :=
  let n := nat_of_ascii c in ((48 <=? n) && (n <=? 57))%nat.

Definition digit_val (c : ascii) : N := N.of_nat (nat_of_ascii c - 48).

(** Underscores are accepted between two digits only; [strip_underscores]
    removes them or fails.  [prev] is the previous character. *)
Fixpoint strip_underscores (prev : ascii) (s : string) : option string :=
  match s with
  | EmptyString => if Ascii.eqb prev "_" then None else Some EmptyString
  | String c s' =>
      if Ascii.eqb c "_" then
        if is_digit prev then strip_underscores c s' else None
      else if Ascii.eqb prev "_" && negb (is_digit c) then None
      else option_map (String c) (strip_underscores c s')
  end.

(** The longest prefix of digits, as a number with its length. *)
Fixpoint take_digits (acc : N) (len : nat) (s : string) : N * nat * string :=
  match s with
  | String c s' =>
      if is_digit c then take_digits (10 * acc + digit_val c) (S len) s'
      else (acc, len, s)
  | EmptyString => (acc, len, s)
  end.

Definition take_sign (s : string) : bool * string :=
  match s with
  | String "-" s' => (true, s')
  | String "+" s' => (false, s')
  | _ => (false, s)
  end.

(** The optional exponent part.  An [e] that no digit follows is not part of
    the number and is left in the rest. *)
Definition take_exponent (s : string) : Z * string :=
  match s with
  | String c s' =>
      if Ascii.eqb (lower_char c) "e" then
        let '(neg, s1) := take_sign s' in
        let '(n, len, rest) := take_digits 0 0 s1 in
        match len with
        | O => (0%Z, s)
        | S _ => ((if neg then - Z.of_N n else Z.of_N n)%Z, rest)
        end
      else (0%Z, s)
  | EmptyString => (0%Z, s)
  end.

(** [float(s)] on a string: surrounding whitespace is dropped; then an
    optional sign and either [inf], [infinity], [nan] (any case) or a decimal
    number with optional fraction and exponent.  [None] is [ValueError]. *)
Definition float_of_string (s0 : string) : option pyfloat :=
  match strip_underscores " " (strip s0) with
  | None => None
  | Some s =>
      let '(neg, body) := take_sign s in
      let lb := lower body in
      if String.eqb lb "inf" || String.eqb lb "infinity" then Some (S754_infinity neg)
      else if String.eqb lb "nan" then Some S754_nan
      else
        let '(ip, ilen, r1) := take_digits 0 0 body in
        let '(fp, flen, r2) :=
          match r1 with
          | String "." r => take_digits ip 0 r
          | _ => (ip, O, r1)
          end in
        match (ilen + flen)%nat with
        | O => None
        | S _ =>
            let '(ex, r3) := take_exponent r2 in
            match r3 with
            | EmptyString =>
                match fp with
                | N0 => Some (S754_zero neg)
                | Npos m => Some (float_of_decimal neg m (ex - Z.of_nat flen))
                end
            | _ => None
            end
        end
  end.

(** [float(x)] for the values of [pyval]. *)
Definition float_ (v : pyval) : outcome pyfloat :=
  match v with
  | PFloat f => Ok f
  | PInt z =>
      let f := float_of_Z z in
      if is_infinite f then Raise OverflowError else Ok f
  | PBool b => Ok (float_of_Z (if b then 1 else 0))
  | PStr s =>
      match float_of_string s with
      | Some f => Ok f
      | None => Raise ValueError
      end
  | PNone | PList _ | PDict _ => Raise TypeError
  end.

(** Whether [format(v, ',.2f')] succeeds: numbers do, anything else raises. *)
Definition formats_as_money (v : pyval) : bool :=
  match v with
  | PBool _ | PInt _ | PFloat _ => true
  | _ => false
  end.

End Py.
Import Py.

(** ** The openpyxl worksheet *)

Module Openpyxl.

(** A cell carries its value and its formatting.  A formula is a string
    value that starts with [=] (the workbook is loaded with
    [data_only=False]); everything else about the look of a cell is its
    style, kept abstract as an identifier.  The sheets considered have
    plain cells only (no merged ranges), and loading and saving keep the
    cells as they are. *)
Record Cell : Type := mkCell { value : pyval; style : nat }.

(** The cell openpyxl creates when a coordinate is first touched. *)
Definition new_cell : Cell := mkCell PNone 0.

(** [Worksheet._cells]: a dictionary keyed by [(row, column)]. *)
Abbreviation worksheet := (gmap (nat * nat) Cell).

(** [ws.cell(row=row, column=col)]: returns the cell and creates it when the
    coordinate is not in [_cells] yet. *)
Definition cell (ws : worksheet) (row col : nat) : worksheet * Cell :=
  match ws !! (row, col) with
  | Some c => (ws, c)
  | None => (<[(row, col) := new_cell]> ws, new_cell)
  end.

(** [ws.max_row]: the largest row of [_cells], 1 on an empty sheet. *)
Definition max_row (ws : worksheet) : nat :=
  map_fold (fun k _ acc => Nat.max (fst k) acc) 1 ws.

(** Reading without touching: what a cell holds, absent cells included. *)
Definition cell_at (ws : worksheet) (row col : nat) : Cell :=
  default new_cell (ws !! (row, col)).

Definition value_at (ws : worksheet) (row col : nat) : pyval :=
  value (cell_at ws row col).

Definition style_at (ws : worksheet) (row col : nat) : nat :=
  style (cell_at ws row col).

(** [c.value = v] for the cell at [(row, col)]: the style stays, the value
    is replaced; a list or a dictionary cannot be converted and raises
    [ValueError].  Strings are stored as they are: the length limit and the
    control-character check of the library are outside the model. *)
Definition set_value (ws : worksheet) (row col : nat) (v : pyval)
  : outcome worksheet :=
  match v with
  | PList _ | PDict _ => Raise ValueError
  | _ => Ok (<[(row, col) := mkCell v (style_at ws row col)]> ws)
  end.

(** A file is a workbook, of which the active sheet matters here, or
    something that is not a workbook. *)
Inductive file : Type :=
  | Workbook (active : worksheet)
  | NotAWorkbook.

(** Paths name files one to one: two different paths are two files. *)
Abbreviation filesystem := (gmap string file).

(** [shutil.copy2(src, dst)]. *)
Definition copy2 (writable : string -> bool) (fs : filesystem)
  (src dst : string) : outcome filesystem :=
  if String.eqb src dst then Raise SameFileError
  else match fs !! src with
       | None => Raise FileNotFoundError
       | Some f => if writable dst then Ok (<[dst := f]> fs)
                   else Raise PermissionError
       end.

(** [load_workbook(path, data_only=False)] followed by [.active]. *)
Definition load_workbook (fs : filesystem) (path : string) : outcome worksheet :=
  match fs !! path with
  | None => Raise FileNotFoundError
  | Some NotAWorkbook => Raise LibraryError
  | Some (Workbook ws) => Ok ws
  end.

(** [workbook.save(path)]. *)
Definition save (writable : string -> bool) (fs : filesystem)
  (path : string) (ws : worksheet) : outcome filesystem :=
  if writable path then Ok (<[path := Workbook ws]> fs)
  else Raise PermissionError.

End Openpyxl.
Import Openpyxl.

(** ** [populate_template] *)

(** [range(a, b)]. *)
Definition range (a b : nat) : list nat := seq a (b - a).
Arguments range : simpl never.

(** STEP 3, the display loop: rows 1 to 5, columns 1 to 5 are read (and so
    created); what is printed does not matter. *)
Definition show_structure (ws : worksheet) : worksheet :=
  fold_left
    (fun ws1 row => fold_left (fun ws2 col => fst (cell ws2 row col)) (range 1 6) ws1)
    (range 1 6) ws.

(** [cell_value and isinstance(cell_value, str)] *)
Definition nonempty_str (v : pyval) : option string :=
  match v with
  | PStr s => if String.eqb s "" then None else Some s
  | _ => None
  end.

(** [if "Line Item" in cell_value] *)
Definition exact_header (v : pyval) : bool :=
  match nonempty_str v with
  | Some s => contains "Line Item" s
  | None => false
  end.

(** [if "line" in cell_lower and "item" in cell_lower] *)
Definition loose_header (v : pyval) : bool :=
  match nonempty_str v with
  | Some s => let cell_lower := lower s in
              contains "line" cell_lower && contains "item" cell_lower
  | None => false
  end.

(** The inner [for col in ...] loop of a header search: stops with [break]
    at the first cell the test accepts. *)
Fixpoint search_cols (test : pyval -> bool) (ws : worksheet) (row : nat)
  (cols : list nat) : worksheet * option nat :=
  match cols with
  | [] => (ws, None)
  | col :: cols' =>
      let '(ws1, c) := cell ws row col in
      if test (value c) then (ws1, Some col)
      else search_cols test ws1 row cols'
  end.

(** The outer [for row in ...] loop: [if line_item_col_idx: break] after each
    row.  The result is [(line_item_col_idx, header_row)]. *)
Fixpoint search_rows (test : pyval -> bool) (ws : worksheet)
  (rows cols : list nat) : worksheet * option (nat * nat) :=
  match rows with
  | [] => (ws, None)
  | row :: rows' =>
      match search_cols test ws row cols with
      | (ws1, Some col) => (ws1, Some (col, row))
      | (ws1, None) => search_rows test ws1 rows' cols
      end
  end.

(** The check of the header of column B: reads rows 1 to 5 of column 2 up to
    the first non-empty string. *)
Fixpoint column_b_header (ws : worksheet) (rows : list nat) : worksheet :=
  match rows with
  | [] => ws
  | row :: rows' =>
      let '(ws1, c) := cell ws row 2 in
      match nonempty_str (value c) with
      | Some _ => ws1
      | None => column_b_header ws1 rows'
      end
  end.

(** The three locals that STEP 3 computes. *)
Record columns : Type := mkColumns {
  line_item_col_idx : nat;
  amount_col_idx : nat;
  header_row : option nat
}.

(** STEP 3 as a whole. *)
Definition find_columns (ws : worksheet) : worksheet * columns :=
  let ws := show_structure ws in
  let '(ws, found) := search_rows exact_header ws (range 1 11) (range 1 11) in
  let '(ws, found) :=
    match found with
    | Some _ => (ws, found)
    | None => search_rows loose_header ws (range 1 11) (range 1 6)
    end in
  let amount_col_idx := 2 in
  let ws := column_b_header ws (range 1 6) in
  let line_item_col_idx :=
    match found with
    | Some (col, _) => col
    | None => 1
    end in
  let ws := fst (cell ws 1 line_item_col_idx) in
  let ws := fst (cell ws 1 amount_col_idx) in
  (ws, mkColumns line_item_col_idx amount_col_idx (option_map snd found)).

(** [cell_value is None or str(cell_value).strip() == ''].  The text of a
    number or of a boolean is never blank. *)
Definition is_blank (v : pyval) : bool :=
  match v with
  | PNone => true
  | PStr s => String.eqb (strip s) ""
  | _ => false
  end.

(** The loop of STEP 4 over its rows, with [break] at the first blank. *)
Fixpoint scan_blank (ws : worksheet) (col : nat) (rows : list nat)
  : worksheet * option nat :=
  match rows with
  | [] => (ws, None)
  | row :: rows' =>
      let '(ws1, c) := cell ws row col in
      if is_blank (value c) then (ws1, Some row)
      else scan_blank ws1 col rows'
  end.

(** [start_row = (header_row + 1) if header_row else 2] *)
Definition start_row_of (header_row : option nat) : nat :=
  match header_row with
  | Some r => r + 1
  | None => 2
  end.

(** STEP 4.  The bound of the range is read before the loop, the fallback
    [worksheet.max_row + 1] after it. *)
Definition find_insert_row (ws : worksheet) (col start_row : nat)
  : worksheet * nat :=
  let '(ws1, insert_row) :=
    scan_blank ws col (range start_row (max_row ws + 20)) in
  match insert_row with
  | Some r => (ws1, r)
  | None => (ws1, max_row ws1 + 1)
  end.

(** STEP 5: the items from index [i] on; [n] is [len(line_items)].  The
    progress line formats the amount with [,.2f] for the first five and the
    last two items, which raises unless the amount is a number. *)
Fixpoint write_items (ws : worksheet) (col insert_row n i : nat)
  (items : list pyval) : outcome worksheet :=
  match items with
  | [] => Ok ws
  | item :: items' =>
      let row_idx := insert_row + i in
      let ws := fst (cell ws row_idx col) in
      bind (getitem item "line_item") (fun description =>
      bind (set_value ws row_idx col description) (fun ws =>
      let ws := fst (cell ws row_idx 2) in
      bind (getitem item "amount") (fun amount =>
      bind (float_ amount) (fun f =>
      bind (set_value ws row_idx 2 (PFloat f)) (fun ws =>
      if ((i <? 5) || (n - 2 <=? i))%nat && negb (formats_as_money amount)
      then Raise ValueError
      else write_items ws col insert_row n (S i) items')))))
  end.

(** STEPS 3 to 5 on the loaded worksheet. *)
Definition fill_worksheet (ws : worksheet) (line_items : list pyval)
  : outcome worksheet :=
  let '(ws, cols) := find_columns ws in
  let '(ws, insert_row) :=
    find_insert_row ws (line_item_col_idx cols) (start_row_of (header_row cols)) in
  write_items ws (line_item_col_idx cols) insert_row (length line_items) 0 line_items.

(** The whole method: the new file system and the returned boolean.  Any
    exception ends in [return False]; what [copy2] wrote stays. *)
Definition populate_template (writable : string -> bool) (fs : filesystem)
  (line_items : list pyval) (template_path output_path : string)
  : filesystem * bool :=
  match copy2 writable fs template_path output_path with
  | Raise _ => (fs, false)
  | Ok fs1 =>
      match bind (load_workbook fs1 output_path)
                 (fun ws => bind (fill_worksheet ws line_items)
                                 (save writable fs1 output_path)) with
      | Ok fs2 => (fs2, true)
      | Raise _ => (fs1, false)
      end
  end.

(** The description column, the header row and the insertion row that
    [populate_template] settles on for a template sheet. *)
Definition columns_of (ws : worksheet) : columns := snd (find_columns ws).

Definition insert_row_of (ws : worksheet) : nat :=
  let '(ws1, cols) := find_columns ws in
  snd (find_insert_row ws1 (line_item_col_idx cols) (start_row_of (header_row cols))).

(** ** [parse_with_ai] *)

Definition nl : string := String (ascii_of_nat 10) EmptyString.

Fixpoint string_drop (n : nat) (s : string) : string :=
  match n, s with
  | S n', String _ s' => string_drop n' s'
  | _, _ => s
  end.

Fixpoint all_space (s : string) : bool :=
  match s with
  | String c s' => is_space c && all_space s'
  | EmptyString => true
  end.

(** [re.sub(r'```json\s*', '', s)].  [skip] counts the characters of a
    matched fence still to drop; [eat_space] is set while the [\s*] after a
    fence is being consumed. *)
Fixpoint sub_json_fence (skip : nat) (eat_space : bool) (s : string) : string :=
  match s with
  | EmptyString => EmptyString
  | String c s' =>
      match skip with
      | S k => sub_json_fence k eat_space s'
      | O =>
          if eat_space && is_space c then sub_json_fence 0 true s'
          else if String.prefix "```json" s then sub_json_fence 6 true s'
          else String c (sub_json_fence 0 false s')
      end
  end.

(** [re.sub(r'```\s*$', '', s)]: the leftmost fence that only whitespace
    follows is removed together with that whitespace. *)
Fixpoint sub_trailing_fence (s : string) : string :=
  match s with
  | EmptyString => EmptyString
  | String c s' =>
      if String.prefix "```" s && all_space (string_drop 3 s) then EmptyString
      else String c (sub_trailing_fence s')
  end.

(** The cleaning of the response text, lines 202 to 207. *)
Definition clean_response (text : string) : string :=
  let response_text := strip text in
  let response_text := sub_json_fence 0 false response_text in
  let response_text := sub_trailing_fence response_text in
  strip response_text.

(** The dictionary appended to [validated_data]. *)
Definition line_item_dict (description : string) (amount : pyfloat) : pyval :=
  PDict [("line_item", PStr description); ("amount", PFloat amount)].

Section Structurer.

(** The f-string that wraps the document text into the fixed prompt. *)
Variable build_prompt : string -> string.

(** [json.loads]. *)
Variable json_loads : string -> outcome pyval.

(** [str(v)] for a value that is not a string already. *)
Variable str_other : pyval -> string.

Definition str_ (v : pyval) : string :=
  match v with
  | PStr s => s
  | _ => str_other v
  end.

(** The validation loop, lines 214 to 225, with [validated_data] as the
    accumulator.  [ValueError] and [TypeError] of the coercion skip the
    entry; any other exception leaves the loop. *)
Fixpoint validate (validated_data : list pyval) (parsed_data : list pyval)
  : outcome (list pyval) :=
  match parsed_data with
  | [] => Ok validated_data
  | item :: rest =>
      match item with
      | PDict d =>
          match dict_get d "line_item", dict_get d "amount" with
          | Some line_item, Some amount_in =>
              match float_ amount_in with
              | Ok amount =>
                  validate
                    (validated_data ++
                       [line_item_dict (strip (str_ line_item)) amount])
                    rest
              | Raise e =>
                  if is_value_or_type_error e
                  then validate validated_data rest
                  else Raise e
              end
          | _, _ => validate validated_data rest
          end
      | _ => validate validated_data rest
      end
  end.

(** [self.model] is [None] or an object whose [generate_content(prompt)]
    gives the response text or raises. *)
Definition parse_with_ai (model : option (string -> outcome string))
  (text_content : string) : list pyval :=
  match model with
  | None => []
  | Some generate_content =>
      let attempt :=
        bind (generate_content (build_prompt text_content)) (fun text =>
        bind (json_loads (clean_response text)) (fun parsed_data =>
        match parsed_data with
        | PList l => validate [] l
        | _ => Ok []
        end)) in
      match attempt with
      | Ok validated_data => validated_data
      | Raise _ => []
      end
  end.

End Structurer.

(** ** [extract_text_from_file] *)

(** The import-time flags: [PYPDF2_AVAILABLE] is bound only when the import
    of PyMuPDF failed. *)
Inductive pdf_libraries : Type :=
  | HavePyMuPDF
  | HavePyPDF2
  | NoPdfLibrary.

(** What lies outside the repository: the file system and the readers. *)
Record environment : Type := mkEnvironment {
  path_exists : string -> bool;
  pdf_libs : pdf_libraries;
  PYTESSERACT_AVAILABLE : bool;
  (** the page texts of [fitz.open(path)], each [get_text] may raise *)
  fitz_pages : string -> outcome (list (outcome string));
  (** the page texts of [PyPDF2.PdfReader] *)
  pypdf2_pages : string -> outcome (list (outcome string));
  (** [pytesseract.image_to_string(Image.open(path))] *)
  image_to_string : string -> outcome string;
  (** [pd.ExcelFile(path).sheet_names] with, for each sheet, the
      [to_string] rendering of [pd.read_excel] *)
  excel_sheets : string -> outcome (list (string * outcome string));
  (** [str(e)] *)
  exn_text : exn -> string
}.

Definition PYMUPDF_AVAILABLE (env : environment) : bool :=
  match pdf_libs env with HavePyMuPDF => true | _ => false end.

Definition PYPDF2_AVAILABLE (env : environment) : outcome bool :=
  match pdf_libs env with
  | HavePyMuPDF => Raise NameError
  | HavePyPDF2 => Ok true
  | NoPdfLibrary => Ok false
  end.

(** [Path.name] on a POSIX path: the last component that is neither empty
    nor a single dot. *)
Fixpoint path_name_go (cur last : string) (s : string) : string :=
  let close cur last :=
    if String.eqb cur "" || String.eqb cur "." then last else cur in
  match s with
  | EmptyString => close cur last
  | String c s' =>
      if Ascii.eqb c "/" then path_name_go "" (close cur last) s'
      else path_name_go (cur ++ String c EmptyString) last s'
  end.

Definition path_name (file_path : string) : string := path_name_go "" "" file_path.

(** [name.rfind('.')] *)
Fixpoint rfind_dot (i : nat) (s : string) : option nat :=
  match s with
  | EmptyString => None
  | String c s' =>
      match rfind_dot (S i) s' with
      | Some j => Some j
      | None => if Ascii.eqb c "." then Some i else None
      end
  end.

(** [Path.suffix]: from the last dot of the name on, unless that dot is the
    first or the last character. *)
Definition path_suffix (file_path : string) : string :=
  let name := path_name file_path in
  match rfind_dot 0 name with
  | Some i =>
      if ((0 <? i) && (i <? String.length name - 1))%nat
      then string_drop i name else ""
  | None => ""
  end.

(** The page loop [text_content += page_text + "\n"]; the text gathered so
    far stays in the local when a page raises. *)
Fixpoint add_pages (text_content : string) (pages : list (outcome string))
  : string * option exn :=
  match pages with
  | [] => (text_content, None)
  | Ok page_text :: pages' => add_pages (text_content ++ page_text ++ nl) pages'
  | Raise e :: _ => (text_content, Some e)
  end.

(** One [try] block of [_extract_from_pdf]: [Some text] is its [return]. *)
Definition try_pages (text_content : string)
  (opened : outcome (list (outcome string))) : string * option string :=
  match opened with
  | Raise _ => (text_content, None)
  | Ok pages =>
      match add_pages text_content pages with
      | (t, None) => (t, Some t)
      | (t, Some _) => (t, None)
      end
  end.

Definition _extract_from_pdf (env : environment) (file_path : string)
  : outcome string :=
  let text_content := "" in
  let '(text_content, returned) :=
    if PYMUPDF_AVAILABLE env
    then try_pages text_content (fitz_pages env file_path)
    else (text_content, None) in
  match returned with
  | Some t => Ok t
  | None =>
      bind (PYPDF2_AVAILABLE env) (fun available =>
      match (if available
             then snd (try_pages text_content (pypdf2_pages env file_path))
             else None) with
      | Some t => Ok t
      | None => Raise ImportError
      end)
  end.

Definition _extract_from_image (env : environment) (file_path : string)
  : outcome string :=
  if negb (PYTESSERACT_AVAILABLE env) then
    Ok ("[OCR NOT AVAILABLE] Image file: " ++ path_name file_path ++
        ". Please convert to PDF or use text-based documents for processing.")
  else
    match image_to_string env file_path with
    | Ok text => Ok text
    | Raise e =>
        Ok ("[OCR FAILED] Image file: " ++ path_name file_path ++
            ". Error: " ++ exn_text env e)
    end.

(** The sheet loop of [_extract_from_excel]. *)
Fixpoint add_sheets (all_text : string) (sheets : list (string * outcome string))
  : outcome string :=
  match sheets with
  | [] => Ok all_text
  | (sheet_name, Ok table) :: sheets' =>
      add_sheets (all_text ++ ("Sheet: " ++ sheet_name ++ nl) ++ (table ++ nl ++ nl))
                 sheets'
  | (_, Raise e) :: _ => Raise e
  end.

Definition _extract_from_excel (env : environment) (file_path : string)
  : outcome string :=
  match bind (excel_sheets env file_path) (add_sheets "") with
  | Ok all_text => Ok all_text
  | Raise _ => Ok ""
  end.

Definition in_list (x : string) (l : list string) : bool :=
  existsb (String.eqb x) l.

Definition extract_text_from_file (env : environment) (file_path : string)
  : outcome string :=
  if negb (path_exists env file_path) then Raise FileNotFoundError
  else
    let file_ext := lower (path_suffix file_path) in
    let attempt :=
      if String.eqb file_ext ".pdf" then _extract_from_pdf env file_path
      else if in_list file_ext [".png"; ".jpg"; ".jpeg"; ".bmp"; ".tiff"]
      then _extract_from_image env file_path
      else if in_list file_ext [".xlsx"; ".xls"]
      then _extract_from_excel env file_path
      else Raise ValueError in
    match attempt with
    | Ok text => Ok text
    | Raise _ => Ok ""
    end.

(** ** Vocabulary of the specification *)

(** Two sheets that show the same cell, value and style, at every
    coordinate; cells that exist but are empty and unstyled do not count. *)
Definition same_cells (ws ws' : worksheet) : Prop :=
  forall row col, cell_at ws row col = cell_at ws' row col.

(** The first coordinate, rows first and then columns, at which [test]
    accepts the value of the sheet; the result is [(column, row)]. *)
Fixpoint first_match (test : pyval -> bool) (ws : worksheet)
  (rows cols : list nat) : option (nat * nat) :=
  match rows with
  | [] => None
  | row :: rows' =>
      match find (fun col => test (value_at ws row col)) cols with
      | Some col => Some (col, row)
      | None => first_match test ws rows' cols
      end
  end.

(** [(row, col)] comes before [(row', col')] in row-major order. *)
Definition row_major_lt (row col row' col' : nat) : Prop :=
  row < row' \/ (row = row' /\ col < col').

(** A cell "holds a string value containing the exact substring". *)
Definition holds_line_item (ws : worksheet) (row col : nat) : Prop :=
  exists s, value_at ws row col = PStr s /\ contains "Line Item" s = true.

(** A cell "holds a string that, case-insensitively, contains both". *)
Definition holds_line_and_item (ws : worksheet) (row col : nat) : Prop :=
  exists s, value_at ws row col = PStr s /\
            contains "line" (lower s) = true /\ contains "item" (lower s) = true.

(** A cell that is "empty or whitespace-only". *)
Definition empty_or_whitespace (v : pyval) : bool :=
  match v with
  | PNone => true
  | PStr s => all_space s
  | _ => false
  end.

(** The insertion row in the words of the specification, read off the
    template: start below the header row or at row 2, take the first row
    with an empty description cell before row [max_row + 20], else
    [max_row + 1]. *)
Definition insertion_row_spec (ws : worksheet) : nat :=
  let cols := columns_of ws in
  let start := match header_row cols with Some r => r + 1 | None => 2 end in
  match find (fun row => empty_or_whitespace (value_at ws row (line_item_col_idx cols)))
             (range start (max_row ws + 20)) with
  | Some row => row
  | None => max_row ws + 1
  end.

(** The columns that STEP 3 settles on, computed on the template without
    touching it. *)
Definition located_columns (ws : worksheet) : columns :=
  let found :=
    match first_match exact_header ws (range 1 11) (range 1 11) with
    | Some hit => Some hit
    | None => first_match loose_header ws (range 1 11) (range 1 6)
    end in
  mkColumns (match found with Some (col, _) => col | None => 1 end)
            2
            (option_map snd found).

(** A line item as the structurer builds it: a text and a float under the
    keys [line_item] and [amount]. *)
Definition is_line_item (item : pyval) : Prop :=
  exists description amount, item = line_item_dict description amount.

(** The local [insert_row] right after the loop of STEP 4, before the
    fallback is considered. *)
Definition scanned_row (ws : worksheet) : option nat :=
  let '(ws1, cols) := find_columns ws in
  snd (scan_blank ws1 (line_item_col_idx cols)
         (range (start_row_of (header_row cols)) (max_row ws1 + 20))).

(** [worksheet.max_row] as STEP 4 reads it, after STEP 3 has touched the
    sheet. *)
Definition max_row_at_scan (ws : worksheet) : nat := max_row (fst (find_columns ws)).

(** The cells [populate_template] writes for [n] items from row [r] on. *)
Definition target_cell (desc_col r n row col : nat) : Prop :=
  r <= row < r + n /\ (col = desc_col \/ col = 2).

(** ** Sample inputs *)

(** The two items of the end-to-end scenario; [10000.00] and [15000.00]
    are Python floats. *)
Definition permits : pyval := line_item_dict "PERMITS" (float_of_Z 10000).
Definition excavation : pyval := line_item_dict "EXCAVATION" (float_of_Z 15000).

(** A template whose only content is the header in cell A1. *)
Definition header_in_a1 : worksheet :=
  {[ (1, 1) := mkCell (PStr "Line Item") 1 ]}.

(** A template with a numbering column: the header is in cell B1. *)
Definition header_in_b1 : worksheet :=
  <[ (1, 2) := mkCell (PStr "Line Item") 1 ]>
    {[ (1, 1) := mkCell (PStr "No.") 1 ]}.

(** A template whose header reads differently, in cell A2. *)
Definition loose_header_in_a2 : worksheet :=
  {[ (2, 1) := mkCell (PStr "ITEM (one per line)") 1 ]}.

(** A template with a totals row two rows below the header. *)
Definition header_and_total : worksheet :=
  <[ (3, 2) := mkCell (PStr "=SUM(B2:B2)") 2 ]>
    (<[ (3, 1) := mkCell (PStr "TOTAL") 2 ]>
       {[ (1, 1) := mkCell (PStr "Line Item") 1 ]}).

(** A file system that holds one template, and a disk that takes any
    write. *)
Definition one_template (ws : worksheet) : filesystem :=
  {[ "template.xlsx" := Workbook ws ]}.

Definition any_path_writable (path : string) : bool := true.

(** The scenario's items under the key [description] instead of
    [line_item]. *)
Definition permits_by_description : pyval :=
  PDict [("description", PStr "PERMITS"); ("amount", PFloat (float_of_Z 10000))].

(** The sheet that STEPS 3 to 5 leave behind; the sheet itself when they
    raise. *)
Definition filled (ws : worksheet) (line_items : list pyval) : worksheet :=
  match fill_worksheet ws line_items with
  | Ok out => out
  | Raise _ => ws
  end.

(** An item whose description has no whitespace at either end. *)
Definition trimmed_item (item : pyval) : Prop :=
  exists description amount,
    item = line_item_dict description amount /\ strip description = description.

(** Stand-ins for the Gemini client and for [json.loads] in concrete runs:
    the model answers [text], and the decoder reads it as [v]. *)
Definition model_answers (text : string) : option (string -> outcome string) :=
  Some (fun _ => Ok text).

Definition decodes_to (v : pyval) : string -> outcome pyval := fun _ => Ok v.

Definition no_str : pyval -> string := fun _ => "".

(** Two entries the decoder can deliver for a response: a blank description
    with the amount [-5], and an amount that is the JSON literal [NaN]. *)
Definition blank_and_negative : pyval :=
  PDict [("line_item", PStr "  "); ("amount", PInt (-5))].

Definition not_a_number : pyval :=
  PDict [("line_item", PStr "X"); ("amount", PFloat S754_nan)].

(** Entries with a good amount, with the amount "N/A", and with an integer
    amount of 401 digits. *)
Definition entry_a : pyval :=
  PDict [("line_item", PStr "A"); ("amount", PInt 1)].

Definition entry_not_available : pyval :=
  PDict [("line_item", PStr "X"); ("amount", PStr "N/A")].

Definition entry_huge : pyval :=
  PDict [("line_item", PStr "B"); ("amount", PInt (10 ^ 400))].

(** An environment without OCR in which every file exists and every reader
    fails, and one in which no file exists. *)
Definition bare_environment (files_exist : bool) : environment :=
  mkEnvironment (fun _ => files_exist) NoPdfLibrary false
    (fun _ => Raise LibraryError) (fun _ => Raise LibraryError)
    (fun _ => Raise LibraryError) (fun _ => Raise LibraryError)
    (fun _ => "").

(** An environment in which Tesseract is imported but fails on every
    image. *)
Definition failing_ocr_environment : environment :=
  mkEnvironment (fun _ => true) NoPdfLibrary true
    (fun _ => Raise LibraryError) (fun _ => Raise LibraryError)
    (fun _ => Raise LibraryError) (fun _ => Raise LibraryError)
    (fun _ => "tesseract is not installed").

Definition image_extensions : list string := [".png"; ".jpg"; ".jpeg"; ".bmp"; ".tiff"].
Definition excel_extensions : list string := [".xlsx"; ".xls"].

(** ** The rest of the class *)

(** [Path.stem]: the name without its suffix. *)
Definition path_stem (file_path : string) : string :=
  let name := path_name file_path in
  match rfind_dot 0 name with
  | Some i =>
      if ((0 <? i) && (i <? String.length name - 1))%nat
      then String.substring 0 i name else name
  | None => name
  end.

(** Truth of an optional string: [None] and the empty string are false. *)
Definition truthy (key : option string) : bool :=
  match key with
  | Some s => negb (String.eqb s "")
  | None => false
  end.

(** [__init__]: [self.model].  [getenv_key] is
    [os.getenv('GEMINI_API_KEY')]; [client key] is the object that
    [genai.GenerativeModel] gives once [genai.configure(api_key=key)] has
    run, seen through its [generate_content]. *)
Definition init_model (GOOGLE_AI_AVAILABLE : bool)
  (api_key getenv_key : option string)
  (client : string -> string -> outcome string)
  : option (string -> outcome string) :=
  let self_api_key := if truthy api_key then api_key else getenv_key in
  if negb GOOGLE_AI_AVAILABLE then None
  else match self_api_key with
       | Some key => if truthy self_api_key then Some (client key) else None
       | None => None
       end.

Section Pipeline.

Variable build_prompt : string -> string.
Variable json_loads : string -> outcome pyval.
Variable str_other : pyval -> string.

(** [process_document]: the new file system with the returned path, [None]
    for Python's [None]; the exception of a missing input file is not
    caught. *)
Definition process_document (env : environment)
  (model : option (string -> outcome string))
  (writable : string -> bool) (fs : filesystem)
  (input_file template_path : string) (output_path : option string)
  : outcome (filesystem * option string) :=
  let output_path :=
    match output_path with
    | Some p => p
    | None => "COMPLETED_" ++ path_stem input_file ++ "_breakdown.xlsx"
    end in
  bind (extract_text_from_file env input_file) (fun extracted_text =>
  if String.eqb (strip extracted_text) "" then Ok (fs, None)
  else
    let line_items :=
      parse_with_ai build_prompt json_loads str_other model extracted_text in
    match line_items with
    | [] => Ok (fs, None)
    | _ =>
        let '(fs', success) :=
          populate_template writable fs line_items template_path output_path in
        Ok (fs', if success then Some output_path else None)
    end).

End Pipeline.

(** ** The manual entry form of the web application *)

(** [amount > 0] on a float. *)
Definition is_positive (f : pyfloat) : bool :=
  match f with
  | S754_finite false _ _ | S754_infinity false => true
  | _ => false
  end.

(** The loop over the rows of the form in [process_documents_manual_mode]:
    each row is the text and the number the user entered. *)
Fixpoint manual_data_loop (manual_data : list pyval)
  (rows : list (string * pyfloat)) : list pyval :=
  match rows with
  | [] => manual_data
  | (line_item, amount) :: rows' =>
      if negb (String.eqb (strip line_item) "") && is_positive amount
      then manual_data_loop
             (manual_data ++ [line_item_dict (strip line_item) amount]) rows'
      else manual_data_loop manual_data rows'
  end.

(** ** Vocabulary for the further properties *)

(** Two sheets with the same values in rows 1 to 10, columns 1 to 10. *)
Definition agree_on_block (ws ws' : worksheet) : Prop :=
  forall row col, 1 <= row <= 10 -> 1 <= col <= 10 ->
                  value_at ws row col = value_at ws' row col.

(** A value that a cell can take. *)
Definition storable (v : pyval) : bool :=
  match v with
  | PList _ | PDict _ => false
  | _ => true
  end.

(** The item at index [i] of [n] passes the loop of STEP 5: it has both
    keys, a description a cell can take, an amount that [float] accepts and,
    where the progress line is printed, an amount that is a number. *)
Definition item_accepted (n i : nat) (item : pyval) : bool :=
  match getitem item "line_item", getitem item "amount" with
  | Ok description, Ok amount =>
      storable description &&
      match float_ amount with
      | Ok _ => negb (((i <? 5) || (n - 2 <=? i))%nat) || formats_as_money amount
      | Raise _ => false
      end
  | _, _ => false
  end.

Fixpoint items_accepted (n i : nat) (items : list pyval) : bool :=
  match items with
  | [] => true
  | item :: items' => item_accepted n i item && items_accepted n (S i) items'
  end.

(** What the validation loop makes of one entry of the response: the item
    it appends, if any.  Entries that make it leave the loop count as
    dropped here. *)
Definition kept_entry (str_other : pyval -> string) (item : pyval) : option pyval :=
  match item with
  | PDict d =>
      match dict_get d "line_item", dict_get d "amount" with
      | Some line_item, Some amount =>
          match float_ amount with
          | Ok f => Some (line_item_dict (strip (str_ str_other line_item)) f)
          | Raise _ => None
          end
      | _, _ => None
      end
  | _ => None
  end.

(** The entry makes [float] raise something other than [ValueError] or
    [TypeError]. *)
Definition entry_overflows (item : pyval) : bool :=
  match item with
  | PDict d =>
      match dict_get d "line_item", dict_get d "amount" with
      | Some _, Some amount =>
          match float_ amount with
          | Raise e => negb (is_value_or_type_error e)
          | Ok _ => false
          end
      | _, _ => false
      end
  | _ => false
  end.

(** A text without a backtick. *)
Fixpoint no_backtick (s : string) : bool :=
  match s with
  | String c s' => negb (Ascii.eqb c "`") && no_backtick s'
  | EmptyString => true
  end.

(** The page texts of a document when every page could be read. *)
Fixpoint all_read (pages : list (outcome string)) : option (list string) :=
  match pages with
  | [] => Some []
  | Ok text :: pages' => option_map (cons text) (all_read pages')
  | Raise _ :: _ => None
  end.

(** Each page text followed by a newline. *)
Fixpoint join_pages (texts : list string) : string :=
  match texts with
  | [] => ""
  | text :: texts' => text ++ nl ++ join_pages texts'
  end.

(** The reader that [_extract_from_pdf] can get a text from. *)
Definition pdf_reader (env : environment)
  : option (string -> outcome (list (outcome string))) :=
  match pdf_libs env with
  | HavePyMuPDF => Some (fitz_pages env)
  | HavePyPDF2 => Some (pypdf2_pages env)
  | NoPdfLibrary => None
  end.

(** The sheets of a workbook when every sheet could be read, and the text
    built from them. *)
Fixpoint all_sheets_read (sheets : list (string * outcome string))
  : option (list (string * string)) :=
  match sheets with
  | [] => Some []
  | (name, Ok table) :: sheets' => option_map (cons (name, table)) (all_sheets_read sheets')
  | (_, Raise _) :: _ => None
  end.

Fixpoint join_sheets (sheets : list (string * string)) : string :=
  match sheets with
  | [] => ""
  | (name, table) :: sheets' =>
      ("Sheet: " ++ name ++ nl) ++ (table ++ nl ++ nl) ++ join_sheets sheets'
  end.

(** Sample data: a client that echoes its key, a form with a blank row, a
    row without amount and two filled rows. *)
Definition echo_client (key prompt : string) : outcome string := Ok key.

Definition sample_form : list (string * pyfloat) :=
  [("", S754_zero false);
   ("  PERMITS ", float_of_Z 10000);
   ("FENCE", S754_zero false);
   ("EXCAVATION", float_of_Z 15000)].

(** An item whose amount is numeric text. *)
Definition permits_as_text : pyval :=
  PDict [("line_item", PStr "PERMITS"); ("amount", PStr "10000")].

(** An environment with PyMuPDF that reads two pages, and one whose second
    page fails. *)
Definition two_page_environment (second : outcome string) : environment :=
  mkEnvironment (fun _ => true) HavePyMuPDF false
    (fun _ => Ok [Ok "PERMITS 10000"; second])
    (fun _ => Ok [Ok "from PyPDF2"])
    (fun _ => Raise LibraryError) (fun _ => Raise LibraryError)
    (fun _ => "").

(** More sample sheets: the header template with a note below the block,
    and with an amount already in B2. *)
Definition header_and_note : worksheet :=
  <[ (12, 1) := mkCell (PStr "NOTES") 0 ]> header_in_a1.

Definition header_and_amount : worksheet :=
  <[ (2, 2) := mkCell (PFloat (float_of_Z 5)) 0 ]> header_in_a1.

(** The exception [_extract_from_pdf] ends with when no text is returned:
    with PyMuPDF imported the flag of the fallback is unbound. *)
Definition pdf_failure (env : environment) : exn :=
  match pdf_libs env with
  | HavePyMuPDF => NameError
  | _ => ImportError
  end.

(** The message that stands for the text of an image when OCR is not
    available. *)
Definition ocr_unavailable_message (file_path : string) : string :=
  "[OCR NOT AVAILABLE] Image file: " ++ path_name file_path ++
  ". Please convert to PDF or use text-based documents for processing.".


(** The path [process_document] writes to. *)
Definition chosen_output_path (input_file : string) (output_path : option string)
  : string :=
  match output_path with
  | Some p => p
  | None => "COMPLETED_" ++ path_stem input_file ++ "_breakdown.xlsx"
  end.

(** ** The built-ins on sample values *)

Example float_of_string_money : float_of_string "10000.00" = Some (float_of_Z 10000).
Proof. vm_compute. reflexivity. Qed.

Example float_of_string_not_available : float_of_string "N/A" = None.
Proof. reflexivity. Qed.

Example float_of_string_padded : float_ (PStr " -2.5e1 ") = Ok (float_of_Z (-25)).
Proof. vm_compute. reflexivity. Qed.

Example float_of_string_nan : float_ (PStr "NaN") = Ok S754_nan.
Proof. reflexivity. Qed.

Example float_largest_int :
  is_finite (float_of_Z (2 ^ 1024 - 2 ^ 970 - 1)) = true /\
  float_ (PInt (2 ^ 1024 - 2 ^ 970)) = Raise OverflowError.
Proof. split; vm_compute; reflexivity. Qed.

Example strip_both_ends : strip "  Line Item  " = "Line Item".
Proof. reflexivity. Qed.

Example contains_is_case_sensitive :
  contains "Line Item" "Cost Line Items" = true /\
  contains "Line Item" "LINE ITEM" = false /\
  loose_header (PStr "LINE ITEM") = true.
Proof. repeat split; reflexivity. Qed.

Example clean_response_fenced :
  clean_response ("```json" ++ nl ++ "[1, 2]" ++ nl ++ "```" ++ nl) = "[1, 2]".
Proof. reflexivity. Qed.

Example path_suffix_samples :
  path_suffix "plans/Cost Breakdown.PDF" = ".PDF" /\
  path_suffix "plans.v2/notes" = "" /\
  path_suffix ".hidden" = "".
Proof. repeat split; reflexivity. Qed.

Example header_in_b1_columns :
  columns_of header_in_b1 = mkColumns 2 2 (Some 1) /\
  insert_row_of header_in_b1 = 2 /\
  max_row header_in_b1 = 1 /\
  max_row_at_scan header_in_b1 = 5.
Proof. repeat split; vm_compute; reflexivity. Qed.

(** ** Cells and sheets *)

Lemma cell_snd (ws : worksheet) row col : snd (cell ws row col) = cell_at ws row col.
Proof.
  unfold cell, cell_at. destruct (ws !! (row, col)); reflexivity.
Qed.

Lemma cell_fst_same (ws : worksheet) row col : same_cells ws (fst (cell ws row col)).
Proof.
  intros r c. unfold cell, cell_at.
  destruct (ws !! (row, col)) eqn:E; simpl; [reflexivity|].
  destruct (decide ((row, col) = (r, c))) as [[= <- <-]|Hne].
  - rewrite lookup_insert_eq, E. reflexivity.
  - rewrite lookup_insert_ne by assumption. reflexivity.
Qed.

Lemma same_cells_refl ws : same_cells ws ws.
Proof. intros r c. reflexivity. Qed.

Lemma same_cells_trans ws1 ws2 ws3 :
  same_cells ws1 ws2 -> same_cells ws2 ws3 -> same_cells ws1 ws3.
Proof. intros H1 H2 r c. rewrite H1. apply H2. Qed.

Lemma same_cells_value ws ws' row col :
  same_cells ws ws' -> value_at ws row col = value_at ws' row col.
Proof. intros H. unfold value_at. rewrite (H row col). reflexivity. Qed.

Lemma same_cells_style ws ws' row col :
  same_cells ws ws' -> style_at ws row col = style_at ws' row col.
Proof. intros H. unfold style_at. rewrite (H row col). reflexivity. Qed.

Lemma cell_value (ws : worksheet) row col :
  value (snd (cell ws row col)) = value_at ws row col.
Proof. rewrite cell_snd. reflexivity. Qed.

(** *** [max_row] *)

Lemma max_row_bounds (ws : worksheet) :
  1 <= max_row ws /\
  forall k x, ws !! k = Some x -> fst k <= max_row ws.
Proof.
  unfold max_row.
  apply (map_fold_weak_ind
           (fun r (m : worksheet) => 1 <= r /\ forall k x, m !! k = Some x -> fst k <= r)).
  - split; [lia|]. intros k x H. rewrite lookup_empty in H. discriminate.
  - intros i x m r Hi [H1 H2]. split; [lia|].
    intros k y Hk. destruct (decide (i = k)) as [->|Hne].
    + lia.
    + rewrite lookup_insert_ne in Hk by assumption.
      specialize (H2 k y Hk). lia.
Qed.

Lemma max_row_pos ws : 1 <= max_row ws.
Proof. apply max_row_bounds. Qed.

Lemma beyond_max_row (ws : worksheet) row col :
  max_row ws < row -> cell_at ws row col = new_cell.
Proof.
  intros H. unfold cell_at.
  destruct (ws !! (row, col)) eqn:E; [|reflexivity].
  apply (proj2 (max_row_bounds ws)) in E. simpl in E. lia.
Qed.

Lemma value_row_le_max_row (ws : worksheet) row col :
  value_at ws row col <> PNone -> row <= max_row ws.
Proof.
  intros H. destruct (le_lt_dec row (max_row ws)) as [Hle|Hlt]; [assumption|].
  exfalso. apply H. unfold value_at.
  rewrite beyond_max_row by assumption. reflexivity.
Qed.

(** *** Searching a range *)

Lemma find_ext {A} (P Q : A -> bool) (l : list A) :
  (forall x, P x = Q x) -> find P l = find Q l.
Proof.
  intros H. induction l as [|x l IH]; simpl; [reflexivity|].
  rewrite H, IH. reflexivity.
Qed.

Lemma find_seq_Some (P : nat -> bool) a n x :
  a <= x < a + n -> P x = true -> (forall y, a <= y < x -> P y = false) ->
  find P (seq a n) = Some x.
Proof.
  revert a. induction n as [|n IH]; intros a Hx Px Hbefore; [lia|].
  simpl. destruct (decide (a = x)) as [->|Hne].
  - rewrite Px. reflexivity.
  - rewrite (Hbefore a) by lia. apply IH; [lia|assumption|].
    intros y Hy. apply Hbefore. lia.
Qed.

Lemma find_seq_None (P : nat -> bool) a n :
  (forall y, a <= y < a + n -> P y = false) -> find P (seq a n) = None.
Proof.
  revert a. induction n as [|n IH]; intros a H; simpl; [reflexivity|].
  rewrite (H a) by lia. apply IH. intros y Hy. apply H. lia.
Qed.

Lemma find_seq_inv (P : nat -> bool) a n x :
  find P (seq a n) = Some x ->
  a <= x < a + n /\ P x = true /\ forall y, a <= y < x -> P y = false.
Proof.
  revert a. induction n as [|n IH]; intros a H; simpl in H; [discriminate|].
  destruct (P a) eqn:Pa.
  - injection H as <-. split; [lia|]. split; [assumption|]. intros y Hy. lia.
  - apply IH in H as (Hx & Px & Hb). split; [lia|]. split; [assumption|].
    intros y Hy. destruct (decide (y = a)) as [->|Hne]; [assumption|].
    apply Hb. lia.
Qed.

Lemma find_seq_None_inv (P : nat -> bool) a n :
  find P (seq a n) = None -> forall y, a <= y < a + n -> P y = false.
Proof.
  intros H y Hy. apply find_none with (x := y) in H; [assumption|].
  apply in_seq. lia.
Qed.

Lemma first_match_seq_Some test ws a n b m r c :
  a <= r < a + n -> b <= c < b + m ->
  test (value_at ws r c) = true ->
  (forall r' c', a <= r' < a + n -> b <= c' < b + m ->
                 row_major_lt r' c' r c -> test (value_at ws r' c') = false) ->
  first_match test ws (seq a n) (seq b m) = Some (c, r).
Proof.
  revert a. induction n as [|n IH]; intros a Hr Hc Ht Hbefore; [lia|].
  simpl. destruct (decide (a = r)) as [->|Hne].
  - rewrite (find_seq_Some _ b m c); [reflexivity|assumption|assumption|].
    intros y Hy. apply Hbefore; [lia|lia|]. right. lia.
  - rewrite find_seq_None.
    + apply IH; [lia|assumption|assumption|].
      intros r' c' Hr' Hc' Hlt. apply Hbefore; [lia|assumption|assumption].
    + intros y Hy. apply Hbefore; [lia|assumption|]. left. lia.
Qed.

Lemma first_match_seq_None test ws a n b m :
  (forall r c, a <= r < a + n -> b <= c < b + m -> test (value_at ws r c) = false) ->
  first_match test ws (seq a n) (seq b m) = None.
Proof.
  revert a. induction n as [|n IH]; intros a H; simpl; [reflexivity|].
  rewrite find_seq_None.
  - apply IH. intros r c Hr Hc. apply H; [lia|assumption].
  - intros y Hy. apply H; [lia|assumption].
Qed.

Lemma first_match_seq_inv test ws a n b m r c :
  first_match test ws (seq a n) (seq b m) = Some (c, r) ->
  a <= r < a + n /\ b <= c < b + m /\ test (value_at ws r c) = true.
Proof.
  revert a. induction n as [|n IH]; intros a H; simpl in H; [discriminate|].
  destruct (find _ (seq b m)) as [col|] eqn:E.
  - injection H as -> ->. apply find_seq_inv in E as (Hc & Ht & _).
    split; [lia|]. split; [lia|assumption].
  - apply IH in H as (Hr & Hc & Ht). split; [lia|]. split; [lia|assumption].
Qed.

Lemma first_match_ext test ws ws' rows cols :
  same_cells ws ws' ->
  first_match test ws rows cols = first_match test ws' rows cols.
Proof.
  intros Hs. induction rows as [|row rows IH]; simpl; [reflexivity|].
  rewrite IH.
  rewrite (find_ext _ (fun col => test (value_at ws' row col))); [reflexivity|].
  intros col. rewrite (same_cells_value ws ws'); [reflexivity|assumption].
Qed.

(** *** The loops of STEP 3 read the sheet and leave its content alone *)

Lemma search_cols_spec test ws row cols :
  same_cells ws (fst (search_cols test ws row cols)) /\
  snd (search_cols test ws row cols) =
    find (fun col => test (value_at ws row col)) cols.
Proof.
  revert ws. induction cols as [|col cols IH]; intros ws; simpl.
  - split; [apply same_cells_refl|reflexivity].
  - pose proof (cell_fst_same ws row col) as Hs.
    pose proof (cell_value ws row col) as Hv.
    destruct (cell ws row col) as [ws1 c]. simpl in Hs, Hv. rewrite Hv.
    destruct (test (value_at ws row col)); simpl.
    + split; [assumption|reflexivity].
    + destruct (IH ws1) as [IH1 IH2]. split.
      * eapply same_cells_trans; eassumption.
      * rewrite IH2. apply find_ext. intros x.
        rewrite (same_cells_value ws ws1); [reflexivity|assumption].
Qed.

Lemma search_rows_spec test ws rows cols :
  same_cells ws (fst (search_rows test ws rows cols)) /\
  snd (search_rows test ws rows cols) = first_match test ws rows cols.
Proof.
  revert ws. induction rows as [|row rows IH]; intros ws; simpl.
  - split; [apply same_cells_refl|reflexivity].
  - destruct (search_cols_spec test ws row cols) as [Hs Hf].
    destruct (search_cols test ws row cols) as [ws1 [col|]]; simpl in Hs, Hf;
      rewrite <- Hf.
    + split; [assumption|reflexivity].
    + destruct (IH ws1) as [IH1 IH2]. split.
      * eapply same_cells_trans; eassumption.
      * rewrite IH2. symmetry. apply first_match_ext. assumption.
Qed.

Lemma column_b_header_same ws rows : same_cells ws (column_b_header ws rows).
Proof.
  revert ws. induction rows as [|row rows IH]; intros ws; simpl.
  - apply same_cells_refl.
  - pose proof (cell_fst_same ws row 2) as Hs.
    destruct (cell ws row 2) as [ws1 c]. simpl in Hs.
    destruct (nonempty_str (value c)); [assumption|].
    eapply same_cells_trans; [eassumption|apply IH].
Qed.

Lemma touch_cols_same ws row cols :
  same_cells ws (fold_left (fun ws2 col => fst (cell ws2 row col)) cols ws).
Proof.
  revert ws. induction cols as [|col cols IH]; intros ws; simpl.
  - apply same_cells_refl.
  - eapply same_cells_trans; [apply (cell_fst_same ws row col)|apply IH].
Qed.

Lemma touch_rows_same ws rows cols :
  same_cells ws
    (fold_left
       (fun ws1 row => fold_left (fun ws2 col => fst (cell ws2 row col)) cols ws1)
       rows ws).
Proof.
  revert ws. induction rows as [|row rows IH]; intros ws; simpl.
  - apply same_cells_refl.
  - eapply same_cells_trans; [apply touch_cols_same|apply IH].
Qed.

Lemma show_structure_same ws : same_cells ws (show_structure ws).
Proof. apply touch_rows_same. Qed.

Lemma find_columns_spec ws :
  same_cells ws (fst (find_columns ws)) /\
  snd (find_columns ws) = located_columns ws.
Proof.
  unfold find_columns, located_columns.
  pose proof (show_structure_same ws) as H0.
  generalize dependent (show_structure ws). intros ws0 H0.
  destruct (search_rows_spec exact_header ws0 (range 1 11) (range 1 11)) as [H1 F1].
  destruct (search_rows exact_header ws0 (range 1 11) (range 1 11)) as [ws1 found1].
  cbn [fst snd] in H1, F1.
  rewrite <- (first_match_ext _ ws ws0) in F1 by assumption.
  rewrite <- F1.
  assert (Hs1 : same_cells ws ws1) by (eapply same_cells_trans; eassumption).
  destruct found1 as [[col row]|].
  - cbn [fst snd option_map]. split; [|reflexivity].
    eapply same_cells_trans; [|apply cell_fst_same].
    eapply same_cells_trans; [|apply cell_fst_same].
    eapply same_cells_trans; [eassumption|apply column_b_header_same].
  - destruct (search_rows_spec loose_header ws1 (range 1 11) (range 1 6)) as [H2 F2].
    destruct (search_rows loose_header ws1 (range 1 11) (range 1 6)) as [ws2 found2].
    cbn [fst snd] in H2, F2.
    rewrite <- (first_match_ext _ ws ws1) in F2 by assumption.
    rewrite <- F2. cbn [fst snd]. split; [|destruct found2 as [[? ?]|]; reflexivity].
    eapply same_cells_trans; [|apply cell_fst_same].
    eapply same_cells_trans; [|apply cell_fst_same].
    eapply same_cells_trans; [|apply column_b_header_same].
    eapply same_cells_trans; eassumption.
Qed.

Lemma columns_of_located ws : columns_of ws = located_columns ws.
Proof. unfold columns_of. apply find_columns_spec. Qed.

(** *** Whitespace *)

Lemma lstrip_all_space s : all_space (lstrip s) = all_space s.
Proof.
  induction s as [|c s IH]; simpl; [reflexivity|].
  destruct (is_space c) eqn:E; simpl; [assumption|].
  rewrite E. reflexivity.
Qed.

Lemma rstrip_empty s : String.eqb (rstrip s) "" = all_space s.
Proof.
  induction s as [|c s IH]; simpl; [reflexivity|].
  destruct (rstrip s) as [|c' r] eqn:E; simpl in IH; rewrite <- IH.
  - destruct (is_space c); reflexivity.
  - simpl. rewrite andb_false_r. reflexivity.
Qed.

Lemma strip_empty s : String.eqb (strip s) "" = all_space s.
Proof. unfold strip. rewrite rstrip_empty. apply lstrip_all_space. Qed.

Lemma is_blank_empty_or_whitespace v : is_blank v = empty_or_whitespace v.
Proof. destruct v; simpl; try reflexivity. apply strip_empty. Qed.

Lemma rstrip_idem s : rstrip (rstrip s) = rstrip s.
Proof.
  induction s as [|c s IH]; simpl; [reflexivity|].
  destruct (rstrip s) as [|c' r] eqn:E.
  - destruct (is_space c) eqn:Ec; simpl; [reflexivity|]. rewrite Ec. reflexivity.
  - change (rstrip (String c (String c' r)))
      with (match rstrip (String c' r) with
            | EmptyString => if is_space c then EmptyString else String c EmptyString
            | String c0 r0 => String c (String c0 r0)
            end).
    rewrite IH. reflexivity.
Qed.

Lemma rstrip_head c s :
  is_space c = false -> exists r, rstrip (String c s) = String c r.
Proof.
  intros Hc. simpl. destruct (rstrip s) as [|c' r].
  - rewrite Hc. eauto.
  - eauto.
Qed.

Lemma lstrip_head s :
  lstrip s = "" \/ exists c r, lstrip s = String c r /\ is_space c = false.
Proof.
  induction s as [|c s IH]; simpl; [left; reflexivity|].
  destruct (is_space c) eqn:E; [assumption|]. right. eauto.
Qed.

(** [strip] returns a string that [strip] leaves alone. *)
Lemma strip_idem s : strip (strip s) = strip s.
Proof.
  unfold strip. destruct (lstrip_head s) as [->|(c & r & -> & Hc)].
  - reflexivity.
  - destruct (rstrip_head c r Hc) as [r' Hr]. rewrite Hr.
    cbn [lstrip]. rewrite Hc. rewrite <- Hr. apply rstrip_idem.
Qed.

(** *** STEP 4 *)

Lemma scan_blank_spec ws col rows :
  same_cells ws (fst (scan_blank ws col rows)) /\
  snd (scan_blank ws col rows) =
    find (fun row => is_blank (value_at ws row col)) rows.
Proof.
  revert ws. induction rows as [|row rows IH]; intros ws; simpl.
  - split; [apply same_cells_refl|reflexivity].
  - pose proof (cell_fst_same ws row col) as Hs.
    pose proof (cell_value ws row col) as Hv.
    destruct (cell ws row col) as [ws1 c]. simpl in Hs, Hv. rewrite Hv.
    destruct (is_blank (value_at ws row col)); simpl.
    + split; [assumption|reflexivity].
    + destruct (IH ws1) as [IH1 IH2]. split.
      * eapply same_cells_trans; eassumption.
      * rewrite IH2. apply find_ext. intros x.
        rewrite (same_cells_value ws ws1); [reflexivity|assumption].
Qed.

Lemma find_insert_row_same ws col start :
  same_cells ws (fst (find_insert_row ws col start)).
Proof.
  unfold find_insert_row.
  destruct (scan_blank_spec ws col (range start (max_row ws + 20))) as [Hs _].
  destruct (scan_blank ws col (range start (max_row ws + 20))) as [ws1 [r|]];
    exact Hs.
Qed.

Lemma blank_beyond_max_row ws row col :
  max_row ws < row -> is_blank (value_at ws row col) = true.
Proof.
  intros H. unfold value_at. rewrite beyond_max_row by assumption. reflexivity.
Qed.

(** From a start row that is not more than one row below the last row of
    the sheet, the scan finds a blank cell, and finds the same one whatever
    cells reading has created in between. *)
Lemma first_blank_common ws ws1 col start :
  same_cells ws ws1 ->
  start <= max_row ws + 1 -> start <= max_row ws1 + 1 ->
  exists r,
    find (fun row => is_blank (value_at ws1 row col))
         (range start (max_row ws1 + 20)) = Some r /\
    find (fun row => is_blank (value_at ws row col))
         (range start (max_row ws + 20)) = Some r /\
    start <= r /\ r <= max_row ws + 1 /\ r <= max_row ws1 + 1 /\
    is_blank (value_at ws r col) = true /\
    (forall row, start <= row < r -> is_blank (value_at ws row col) = false).
Proof.
  intros Hs H0 H1.
  set (P := fun row => is_blank (value_at ws row col)).
  assert (Pb : P (max_row ws + 1) = true)
    by (apply blank_beyond_max_row; lia).
  assert (Pb1 : P (max_row ws1 + 1) = true).
  { unfold P. rewrite (same_cells_value ws ws1) by assumption.
    apply blank_beyond_max_row. lia. }
  unfold range.
  destruct (find P (seq start (max_row ws + 20 - start))) as [r|] eqn:E.
  - apply find_seq_inv in E as (Hr & Pr & Hbefore).
    assert (r <= max_row ws + 1).
    { destruct (le_lt_dec r (max_row ws + 1)); [assumption|].
      rewrite (Hbefore (max_row ws + 1)) in Pb by lia. discriminate. }
    assert (r <= max_row ws1 + 1).
    { destruct (le_lt_dec r (max_row ws1 + 1)); [assumption|].
      rewrite (Hbefore (max_row ws1 + 1)) in Pb1 by lia. discriminate. }
    exists r. split; [|split; [reflexivity|]].
    + rewrite (find_ext _ P).
      * apply find_seq_Some; [lia|assumption|assumption].
      * intros x. unfold P. symmetry.
        rewrite (same_cells_value ws ws1); [reflexivity|assumption].
    + repeat (split; [first [lia|assumption]|]). assumption.
  - apply find_seq_None_inv with (y := max_row ws + 1) in E; [|lia].
    rewrite E in Pb. discriminate.
Qed.

(** The header row that STEP 3 records holds a non-empty string, so it is a
    row of the sheet. *)
Lemma exact_header_not_None v : exact_header v = true -> v <> PNone.
Proof. intros H ->. discriminate H. Qed.

Lemma loose_header_not_None v : loose_header v = true -> v <> PNone.
Proof. intros H ->. discriminate H. Qed.

Lemma located_header_row ws r :
  header_row (located_columns ws) = Some r ->
  1 <= r <= 10 /\ 1 <= line_item_col_idx (located_columns ws) <= 10 /\
  value_at ws r (line_item_col_idx (located_columns ws)) <> PNone.
Proof.
  unfold located_columns, range.
  destruct (first_match exact_header ws _ _) as [[c0 r0]|] eqn:E1.
  - cbn [header_row line_item_col_idx option_map snd]. intros [= ->].
    apply first_match_seq_inv in E1 as (Hr & Hc & Ht).
    split; [lia|]. split; [lia|]. apply exact_header_not_None. assumption.
  - destruct (first_match loose_header ws _ _) as [[c0 r0]|] eqn:E2;
      cbn [header_row line_item_col_idx option_map snd]; [|discriminate].
    intros [= ->]. apply first_match_seq_inv in E2 as (Hr & Hc & Ht).
    split; [lia|]. split; [lia|]. apply loose_header_not_None. assumption.
Qed.

Lemma start_row_within ws ws1 :
  same_cells ws ws1 ->
  start_row_of (header_row (located_columns ws)) <= max_row ws1 + 1.
Proof.
  intros Hs. destruct (header_row (located_columns ws)) as [r|] eqn:E; simpl.
  - apply located_header_row in E as (_ & _ & Hv).
    rewrite (same_cells_value ws ws1) in Hv by assumption.
    apply value_row_le_max_row in Hv. lia.
  - pose proof (max_row_pos ws1). lia.
Qed.

(** *** STEP 5 *)

Lemma cell_at_set_value ws row col v ws' :
  set_value ws row col v = Ok ws' ->
  forall r c,
    cell_at ws' r c =
      if decide ((row, col) = (r, c)) then mkCell v (style_at ws row col)
      else cell_at ws r c.
Proof.
  intros H r c.
  assert (ws' = <[(row, col) := mkCell v (style_at ws row col)]> ws) as ->
    by (destruct v; simpl in H; congruence).
  unfold cell_at at 1. destruct (decide ((row, col) = (r, c))) as [<-|Hne].
  - rewrite lookup_insert_eq. reflexivity.
  - rewrite lookup_insert_ne by assumption. reflexivity.
Qed.

(** One turn of the loop: the description, then the amount in column 2. *)
Lemma write_row_spec ws col row d f ws2 ws4 :
  set_value (fst (cell ws row col)) row col d = Ok ws2 ->
  set_value (fst (cell ws2 row 2)) row 2 (PFloat f) = Ok ws4 ->
  (forall r c, ~ (r = row /\ (c = col \/ c = 2)) -> cell_at ws4 r c = cell_at ws r c) /\
  (forall r c, style_at ws4 r c = style_at ws r c) /\
  value_at ws4 row 2 = PFloat f /\
  (col <> 2 -> value_at ws4 row col = d).
Proof.
  intros H2 H4.
  pose proof (cell_at_set_value _ _ _ _ _ H2) as C2.
  pose proof (cell_at_set_value _ _ _ _ _ H4) as C4.
  pose proof (cell_fst_same ws row col) as S1.
  pose proof (cell_fst_same ws2 row 2) as S3.
  assert (A : forall r c, cell_at ws4 r c =
            if decide ((row, 2) = (r, c))
            then mkCell (PFloat f) (style_at ws2 row 2)
            else if decide ((row, col) = (r, c))
                 then mkCell d (style_at ws row col)
                 else cell_at ws r c).
  { intros r c. rewrite C4. rewrite <- (same_cells_style _ _ _ _ S3).
    destruct (decide ((row, 2) = (r, c))); [reflexivity|].
    rewrite <- (S3 r c), C2. rewrite <- (same_cells_style _ _ _ _ S1).
    destruct (decide ((row, col) = (r, c))); [reflexivity|].
    symmetry. apply S1. }
  assert (B : forall r c, style_at ws2 r c = style_at ws r c).
  { intros r c. unfold style_at at 1. rewrite C2.
    rewrite <- (same_cells_style _ _ _ _ S1).
    destruct (decide ((row, col) = (r, c))) as [[= <- <-]|]; [reflexivity|].
    symmetry. apply (same_cells_style _ _ _ _ S1). }
  split; [|split; [|split]].
  - intros r c Hn. rewrite A.
    destruct (decide ((row, 2) = (r, c))) as [[= <- <-]|];
      [exfalso; apply Hn; auto|].
    destruct (decide ((row, col) = (r, c))) as [[= <- <-]|];
      [exfalso; apply Hn; auto|reflexivity].
  - intros r c. unfold style_at at 1. rewrite A.
    destruct (decide ((row, 2) = (r, c))) as [[= <- <-]|]; [apply B|].
    destruct (decide ((row, col) = (r, c))) as [[= <- <-]|]; reflexivity.
  - unfold value_at. rewrite A.
    destruct (decide ((row, 2) = (row, 2))); [reflexivity|congruence].
  - intros Hc. unfold value_at. rewrite A.
    destruct (decide ((row, 2) = (row, col))); [congruence|].
    destruct (decide ((row, col) = (row, col))); [reflexivity|congruence].
Qed.

Lemma bind_Ok {A B} (m : outcome A) (k : A -> outcome B) b :
  bind m k = Ok b -> exists a, m = Ok a /\ k a = Ok b.
Proof. destruct m; simpl; [eauto|discriminate]. Qed.

(** What a run of the loop that ends without exception has done. *)
Lemma write_items_spec items : forall ws col r n i out,
  write_items ws col r n i items = Ok out ->
  (forall row c, ~ target_cell col (r + i) (length items) row c ->
                 cell_at out row c = cell_at ws row c) /\
  (forall row c, style_at out row c = style_at ws row c) /\
  (forall j item, items !! j = Some item ->
     exists d a f,
       getitem item "line_item" = Ok d /\ getitem item "amount" = Ok a /\
       float_ a = Ok f /\
       value_at out (r + i + j) 2 = PFloat f /\
       (col <> 2 -> value_at out (r + i + j) col = d)).
Proof.
  induction items as [|item items IH]; intros ws col r n i out H.
  - simpl in H. injection H as <-. split; [|split].
    + reflexivity.
    + reflexivity.
    + intros j item Hj. rewrite lookup_nil in Hj. discriminate.
  - cbn [write_items] in H.
    apply bind_Ok in H as (d & Hd & H).
    apply bind_Ok in H as (ws2 & H2 & H).
    apply bind_Ok in H as (a & Ha & H).
    apply bind_Ok in H as (f & Hf & H).
    apply bind_Ok in H as (ws4 & H4 & H).
    destruct (_ && _) in H; [discriminate|].
    destruct (write_row_spec _ _ _ _ _ _ _ H2 H4) as (R1 & R2 & R3 & R4).
    destruct (IH _ _ _ _ _ _ H) as (I1 & I2 & I3).
    assert (Hrow : forall c, ~ target_cell col (r + S i) (length items) (r + i) c)
      by (intros c [Hr _]; lia).
    split; [|split].
    + intros row c Hn. rewrite I1.
      * apply R1. intros [-> Hc]. apply Hn. split; [simpl; lia|assumption].
      * intros [Hr Hc]. apply Hn. split; [simpl; lia|assumption].
    + intros row c. rewrite I2. apply R2.
    + intros [|j] it Hj.
      * simpl in Hj. injection Hj as <-. exists d, a, f.
        rewrite Nat.add_0_r. unfold value_at. rewrite !I1 by apply Hrow.
        repeat (split; [assumption|]). assumption.
      * simpl in Hj. destruct (I3 j it Hj) as (d' & a' & f' & G).
        exists d', a', f'.
        replace (r + i + S j) with (r + S i + j) by lia. exact G.
Qed.

(** Items built like those of the structurer never stop the loop. *)
Lemma write_items_line_items items : forall ws col r n i,
  Forall is_line_item items ->
  exists out, write_items ws col r n i items = Ok out.
Proof.
  induction items as [|item items IH]; intros ws col r n i H.
  - simpl. eauto.
  - inversion H as [|x l (d & f & ->) Hrest]; subst.
    cbn [write_items getitem line_item_dict dict_get String.eqb Ascii.eqb
         Bool.eqb bind set_value float_ formats_as_money negb andb].
    rewrite andb_false_r. apply IH. assumption.
Qed.

(** *** The method as a whole *)

Lemma fill_worksheet_unfold ws items :
  exists ws2,
    same_cells ws ws2 /\
    fill_worksheet ws items =
      write_items ws2 (line_item_col_idx (columns_of ws)) (insert_row_of ws)
                  (length items) 0 items.
Proof.
  unfold fill_worksheet, insert_row_of, columns_of.
  destruct (find_columns_spec ws) as [Hs _].
  destruct (find_columns ws) as [ws1 cols]. cbn [fst snd] in *.
  pose proof (find_insert_row_same ws1 (line_item_col_idx cols)
                (start_row_of (header_row cols))) as Hs2.
  destruct (find_insert_row ws1 _ _) as [ws2 r]. cbn [fst snd] in *.
  exists ws2. split; [|reflexivity].
  eapply same_cells_trans; eassumption.
Qed.

Lemma populate_template_true writable fs items t o fs' :
  populate_template writable fs items t o = (fs', true) ->
  exists tmpl out,
    fs !! t = Some (Workbook tmpl) /\ t <> o /\ writable o = true /\
    fill_worksheet tmpl items = Ok out /\
    fs' = <[o := Workbook out]> fs.
Proof.
  unfold populate_template, copy2.
  destruct (String.eqb t o) eqn:Eto; [intros [= _ ?]; discriminate|].
  apply String.eqb_neq in Eto.
  destruct (fs !! t) as [f|] eqn:Et; [|intros [= _ ?]; discriminate].
  destruct (writable o) eqn:Ew; [|intros [= _ ?]; discriminate].
  unfold load_workbook. rewrite lookup_insert_eq.
  destruct f as [tmpl|]; [|intros [= _ ?]; discriminate].
  cbn [bind]. destruct (fill_worksheet tmpl items) as [out|e] eqn:Ef;
    [|intros [= _ ?]; discriminate].
  cbn [bind]. unfold save. rewrite Ew. intros [= <-].
  exists tmpl, out. rewrite insert_insert_eq. auto.
Qed.

Lemma populate_template_runs writable fs items t o tmpl out :
  fs !! t = Some (Workbook tmpl) -> t <> o -> writable o = true ->
  fill_worksheet tmpl items = Ok out ->
  populate_template writable fs items t o = (<[o := Workbook out]> fs, true).
Proof.
  intros Et Hto Ew Ef. unfold populate_template, copy2.
  apply String.eqb_neq in Hto. rewrite Hto, Et, Ew.
  unfold load_workbook. rewrite lookup_insert_eq. cbn [bind]. rewrite Ef.
  cbn [bind]. unfold save. rewrite Ew, insert_insert_eq. reflexivity.
Qed.

(** The template file is the same before and after, however the call ends. *)
Lemma populate_template_keeps_template writable fs items t o :
  fst (populate_template writable fs items t o) !! t = fs !! t.
Proof.
  unfold populate_template, copy2.
  destruct (String.eqb t o) eqn:Eto; [reflexivity|].
  apply String.eqb_neq in Eto.
  destruct (fs !! t) as [f|] eqn:Et; [|exact Et].
  destruct (writable o) eqn:Ew; [|exact Et].
  destruct (bind _ _) as [fs2|e] eqn:Eb; cbn [fst].
  - apply bind_Ok in Eb as (ws & _ & Eb).
    apply bind_Ok in Eb as (out & _ & Eb).
    unfold save in Eb. rewrite Ew in Eb. injection Eb as <-.
    rewrite !lookup_insert_ne by congruence. exact Et.
  - rewrite lookup_insert_ne by congruence. exact Et.
Qed.

(** *** The insertion row *)

Lemma start_row_of_eq h :
  start_row_of h = match h with Some r => r + 1 | None => 2 end.
Proof. reflexivity. Qed.

Lemma insert_row_core ws :
  let cols := columns_of ws in
  let start := start_row_of (header_row cols) in
  exists r,
    scanned_row ws = Some r /\ insert_row_of ws = r /\
    find (fun row => is_blank (value_at ws row (line_item_col_idx cols)))
         (range start (max_row ws + 20)) = Some r /\
    start <= r /\ r <= max_row ws + 1 /\ r <= max_row_at_scan ws + 1 /\
    is_blank (value_at ws r (line_item_col_idx cols)) = true /\
    (forall row, start <= row < r ->
                 is_blank (value_at ws row (line_item_col_idx cols)) = false).
Proof.
  unfold scanned_row, insert_row_of, max_row_at_scan, columns_of, find_insert_row.
  destruct (find_columns_spec ws) as [Hs Hc].
  destruct (find_columns ws) as [ws1 cols]. cbn [fst snd] in *. subst cols.
  set (cols := located_columns ws).
  destruct (first_blank_common ws ws1 (line_item_col_idx cols)
              (start_row_of (header_row cols)) Hs
              (start_row_within ws ws (same_cells_refl ws))
              (start_row_within ws ws1 Hs))
    as (r & F1 & F & G1 & G2 & G3 & G4 & G5).
  destruct (scan_blank_spec ws1 (line_item_col_idx cols)
              (range (start_row_of (header_row cols)) (max_row ws1 + 20)))
    as [_ Hf].
  rewrite F1 in Hf.
  destruct (scan_blank ws1 _ _) as [ws2 found]. cbn [snd] in Hf. subst found.
  exists r. cbn [snd]. auto 10.
Qed.

Lemma find_insert_row_fallback ws col start :
  (forall row, start <= row < max_row ws + 20 ->
               is_blank (value_at ws row col) = false) ->
  max_row ws + 20 <= start /\
  snd (find_insert_row ws col start) = max_row ws + 1.
Proof.
  intros H.
  assert (Hge : max_row ws + 20 <= start).
  { destruct (le_lt_dec (max_row ws + 20) start) as [|Hlt]; [assumption|].
    exfalso.
    assert (Hb : is_blank (value_at ws (Nat.max start (max_row ws + 1)) col) = true)
      by (apply blank_beyond_max_row; lia).
    rewrite H in Hb by lia. discriminate. }
  split; [assumption|].
  unfold find_insert_row, range.
  replace (max_row ws + 20 - start) with 0 by lia. reflexivity.
Qed.

(** *** Header cells *)

Lemma exact_header_iff ws row col :
  exact_header (value_at ws row col) = true <-> holds_line_item ws row col.
Proof.
  unfold holds_line_item, exact_header, nonempty_str. split.
  - destruct (value_at ws row col) as [| | | |s| |]; try discriminate.
    destruct (String.eqb s ""); [discriminate|]. eauto.
  - intros (s & -> & Hc). destruct (String.eqb_spec s "") as [->|_];
      [discriminate Hc|assumption].
Qed.

Lemma loose_header_iff ws row col :
  loose_header (value_at ws row col) = true <-> holds_line_and_item ws row col.
Proof.
  unfold holds_line_and_item, loose_header, nonempty_str. split.
  - destruct (value_at ws row col) as [| | | |s| |]; try discriminate.
    destruct (String.eqb s ""); [discriminate|].
    intros H. apply andb_true_iff in H. eauto.
  - intros (s & -> & Hl & Hi). destruct (String.eqb_spec s "") as [->|_];
      [discriminate Hl|]. rewrite Hl, Hi. reflexivity.
Qed.

Lemma not_true_false (b : bool) (P : Prop) : (b = true <-> P) -> ~ P -> b = false.
Proof. intros H HP. destruct b; [|reflexivity]. exfalso. apply HP, H. reflexivity. Qed.

(** ** The claims about [populate_template] *)

(** C1.  If a cell of rows 1 to 10, columns 1 to 10 holds a string with the
    exact substring "Line Item", the first such cell in row-major order
    gives the description column and the header row; and whatever the
    headers are, the amount column is column 2 and the amounts are written
    into column 2. *)
Theorem C1_line_item_header_and_amount_column (ws : worksheet) :
  (forall row col,
     1 <= row <= 10 -> 1 <= col <= 10 ->
     holds_line_item ws row col ->
     (forall row' col', 1 <= row' <= 10 -> 1 <= col' <= 10 ->
        row_major_lt row' col' row col -> ~ holds_line_item ws row' col') ->
     line_item_col_idx (columns_of ws) = col /\
     header_row (columns_of ws) = Some row) /\
  amount_col_idx (columns_of ws) = 2 /\
  (forall items out i item,
     fill_worksheet ws items = Ok out -> items !! i = Some item ->
     exists a f,
       getitem item "amount" = Ok a /\ float_ a = Ok f /\
       value_at out (insert_row_of ws + i) 2 = PFloat f).
Proof.
  split; [|split].
  - intros row col Hr Hc Hh Hfirst.
    rewrite columns_of_located. unfold located_columns, range.
    rewrite (first_match_seq_Some exact_header ws 1 (11 - 1) 1 (11 - 1) row col);
      [split; reflexivity|simpl; lia|simpl; lia|apply exact_header_iff, Hh|].
    intros r' c' Hr' Hc' Hlt. simpl in Hr', Hc'.
    apply (not_true_false _ _ (exact_header_iff ws r' c')).
    apply Hfirst; [lia|lia|assumption].
  - rewrite columns_of_located. reflexivity.
  - intros items out i item Hf Hi.
    destruct (fill_worksheet_unfold ws items) as (ws2 & _ & E).
    rewrite E in Hf. apply write_items_spec in Hf as (_ & _ & Hv).
    destruct (Hv i item Hi) as (d & a & f & _ & Ha & Hfl & Hcell & _).
    exists a, f. rewrite Nat.add_0_r in Hcell. auto.
Qed.

(** C1 on a template with a numbering column: the header is found in B1. *)
Lemma C1_witness :
  line_item_col_idx (columns_of header_in_b1) = 2 /\
  header_row (columns_of header_in_b1) = Some 1.
Proof.
  apply (proj1 (C1_line_item_header_and_amount_column header_in_b1) 1 2).
  - lia.
  - lia.
  - exists "Line Item". split; reflexivity.
  - intros row' col' Hr Hc Hlt (s & Hv & Hs).
    assert (row' = 1 /\ col' = 1) as [-> ->] by (unfold row_major_lt in Hlt; lia).
    assert (E : value_at header_in_b1 1 1 = PStr "No.") by reflexivity.
    rewrite E in Hv. injection Hv as <-. discriminate Hs.
Defined.

(** C3.  When no cell of the 10 by 10 block holds the exact substring: the
    first cell of rows 1 to 10, columns 1 to 5 whose lower-cased text
    contains both "line" and "item" gives the description column and the
    header row; and when no cell matches that test either, the description
    column is column 1 and no header row is recorded. *)
Theorem C3_fallback_header_search (ws : worksheet) :
  (forall row col, 1 <= row <= 10 -> 1 <= col <= 10 -> ~ holds_line_item ws row col) ->
  (forall row col,
     1 <= row <= 10 -> 1 <= col <= 5 ->
     holds_line_and_item ws row col ->
     (forall row' col', 1 <= row' <= 10 -> 1 <= col' <= 5 ->
        row_major_lt row' col' row col -> ~ holds_line_and_item ws row' col') ->
     line_item_col_idx (columns_of ws) = col /\
     header_row (columns_of ws) = Some row) /\
  ((forall row col, 1 <= row <= 10 -> 1 <= col <= 5 ->
      ~ holds_line_and_item ws row col) ->
   line_item_col_idx (columns_of ws) = 1 /\ header_row (columns_of ws) = None).
Proof.
  intros Hnone.
  assert (E1 : first_match exact_header ws (range 1 11) (range 1 11) = None).
  { unfold range. apply first_match_seq_None. intros r c Hr Hc. simpl in Hr, Hc.
    apply (not_true_false _ _ (exact_header_iff ws r c)).
    apply Hnone; lia. }
  rewrite columns_of_located. unfold located_columns. rewrite E1. split.
  - intros row col Hr Hc Hh Hfirst. unfold range.
    rewrite (first_match_seq_Some loose_header ws 1 (11 - 1) 1 (6 - 1) row col);
      [split; reflexivity|simpl; lia|simpl; lia|apply loose_header_iff, Hh|].
    intros r' c' Hr' Hc' Hlt. simpl in Hr', Hc'.
    apply (not_true_false _ _ (loose_header_iff ws r' c')).
    apply Hfirst; [lia|lia|assumption].
  - intros Hno. unfold range. rewrite first_match_seq_None; [split; reflexivity|].
    intros r c Hr Hc. simpl in Hr, Hc.
    apply (not_true_false _ _ (loose_header_iff ws r c)).
    apply Hno; lia.
Qed.

Lemma loose_header_in_a2_elsewhere row col :
  (2, 1) <> (row, col) -> value_at loose_header_in_a2 row col = PNone.
Proof.
  intros Hne. unfold value_at, cell_at, loose_header_in_a2.
  rewrite lookup_singleton_ne by exact Hne. reflexivity.
Defined.

(** C3 on a template whose header, in A2, reads "ITEM (one per line)". *)
Lemma C3_witness :
  line_item_col_idx (columns_of loose_header_in_a2) = 1 /\
  header_row (columns_of loose_header_in_a2) = Some 2.
Proof.
  assert (Hnone : forall row col, 1 <= row <= 10 -> 1 <= col <= 10 ->
                    ~ holds_line_item loose_header_in_a2 row col).
  { intros row col _ _ (s & Hv & Hs).
    destruct (decide ((2, 1) = (row, col))) as [[= <- <-]|Hne].
    - assert (E : value_at loose_header_in_a2 2 1 = PStr "ITEM (one per line)")
        by reflexivity.
      rewrite E in Hv. injection Hv as <-. discriminate Hs.
    - rewrite loose_header_in_a2_elsewhere in Hv by exact Hne. discriminate Hv. }
  apply (proj1 (C3_fallback_header_search loose_header_in_a2 Hnone) 2 1).
  - lia.
  - lia.
  - exists "ITEM (one per line)". split; [reflexivity|]. split; reflexivity.
  - intros row' col' Hr Hc Hlt (s & Hv & _).
    rewrite loose_header_in_a2_elsewhere in Hv; [discriminate Hv|].
    intros [= <- <-]. unfold row_major_lt in Hlt. lia.
Defined.

(** C4.  The insertion row is the one the specification describes: start
    one row below the header row, or at row 2 without one; go down the
    description column to the first cell that is empty or holds only
    whitespace.  That cell is found wherever the range ends from
    [max_row + 2] on, so it does not matter whether "within max_row + 20"
    includes the last row.  The fallback of the loop, taken when every row
    of the range is filled, is [max_row + 1]. *)
Theorem C4_insertion_row (ws : worksheet) :
  insert_row_of ws = insertion_row_spec ws /\
  (let col := line_item_col_idx (columns_of ws) in
   let start := match header_row (columns_of ws) with Some r => r + 1 | None => 2 end in
   start <= insert_row_of ws /\
   empty_or_whitespace (value_at ws (insert_row_of ws) col) = true /\
   (forall row, start <= row < insert_row_of ws ->
                empty_or_whitespace (value_at ws row col) = false) /\
   (forall bound, max_row ws + 2 <= bound ->
      find (fun row => empty_or_whitespace (value_at ws row col)) (range start bound)
        = Some (insert_row_of ws))) /\
  (forall (sheet : worksheet) col start,
     (forall row, start <= row < max_row sheet + 20 ->
                  empty_or_whitespace (value_at sheet row col) = false) ->
     snd (find_insert_row sheet col start) = max_row sheet + 1).
Proof.
  pose proof (insert_row_core ws) as H. cbv zeta in H.
  destruct H as (r & _ & Hr & Hf & G1 & G2 & _ & G4 & G5).
  rewrite start_row_of_eq in Hf, G1, G5.
  split; [|split].
  - unfold insertion_row_spec. cbv zeta.
    rewrite (find_ext _ (fun row => is_blank
               (value_at ws row (line_item_col_idx (columns_of ws)))))
      by (intros x; symmetry; apply is_blank_empty_or_whitespace).
    rewrite Hf. exact Hr.
  - cbv zeta. rewrite Hr.
    split; [exact G1|]. split; [|split].
    + rewrite <- is_blank_empty_or_whitespace. exact G4.
    + intros row Hrow. rewrite <- is_blank_empty_or_whitespace. apply G5. exact Hrow.
    + intros bound Hbound. unfold range. apply find_seq_Some.
      * lia.
      * rewrite <- is_blank_empty_or_whitespace. exact G4.
      * intros row Hrow. rewrite <- is_blank_empty_or_whitespace. apply G5. exact Hrow.
  - intros sheet col start H.
    refine (proj2 (find_insert_row_fallback sheet col start _)).
    intros row Hrow. rewrite is_blank_empty_or_whitespace. apply H. exact Hrow.
Qed.

(** C4 at the loop alone: started at row 30 of an empty sheet the range is
    empty and the fallback gives row 2. *)
Lemma C4_witness :
  snd (find_insert_row (∅ : worksheet) 1 30) = max_row (∅ : worksheet) + 1.
Proof.
  apply (proj2 (proj2 (C4_insertion_row header_in_a1)) ∅ 1 30).
  intros row Hrow. exfalso.
  assert (E : max_row (∅ : worksheet) = 1) by reflexivity.
  rewrite E in Hrow. lia.
Defined.

(** C10.  The loop of STEP 4 always ends with [break]: it finds an empty or
    whitespace-only cell of the description column at a row that is at most
    [max_row + 1], so the fallback after the loop is never taken and the
    insertion row is at most [max_row + 1], for the sheet as loaded and for
    the sheet as STEP 4 sees it. *)
Theorem C10_fallback_unreachable (ws : worksheet) :
  exists r,
    scanned_row ws = Some r /\
    insert_row_of ws = r /\
    empty_or_whitespace (value_at ws r (line_item_col_idx (columns_of ws))) = true /\
    r <= max_row ws + 1 /\
    r <= max_row_at_scan ws + 1.
Proof.
  pose proof (insert_row_core ws) as H. cbv zeta in H.
  destruct H as (r & Hs & Hr & _ & _ & G2 & G3 & G4 & _).
  exists r. rewrite <- is_blank_empty_or_whitespace.
  split; [exact Hs|]. split; [exact Hr|]. split; [exact G4|].
  split; [exact G2|exact G3].
Qed.

(** *** What a successful call leaves in the output sheet *)

Lemma fill_worksheet_spec ws items out :
  fill_worksheet ws items = Ok out ->
  (forall row col,
     ~ target_cell (line_item_col_idx (columns_of ws)) (insert_row_of ws)
                   (length items) row col ->
     cell_at out row col = cell_at ws row col) /\
  (forall row col, style_at out row col = style_at ws row col) /\
  (forall i item, items !! i = Some item ->
     exists d a f,
       getitem item "line_item" = Ok d /\ getitem item "amount" = Ok a /\
       float_ a = Ok f /\
       value_at out (insert_row_of ws + i) 2 = PFloat f /\
       (line_item_col_idx (columns_of ws) <> 2 ->
        value_at out (insert_row_of ws + i) (line_item_col_idx (columns_of ws)) = d)).
Proof.
  intros H. destruct (fill_worksheet_unfold ws items) as (ws2 & Hs & E).
  rewrite E in H. apply write_items_spec in H as (F1 & F2 & F3).
  rewrite Nat.add_0_r in F1. split; [|split].
  - intros row col Hn. rewrite (F1 row col Hn). symmetry. apply Hs.
  - intros row col. rewrite F2. symmetry. apply same_cells_style. exact Hs.
  - intros i item Hi. destruct (F3 i item Hi) as (d & a & f & G).
    rewrite Nat.add_0_r in G. exists d, a, f. exact G.
Qed.

Lemma fill_worksheet_line_items ws items :
  Forall is_line_item items -> exists out, fill_worksheet ws items = Ok out.
Proof.
  intros H. destruct (fill_worksheet_unfold ws items) as (ws2 & _ & E).
  rewrite E. apply write_items_line_items. exact H.
Qed.

(** With the header in A1 and nothing below it, items go to row 2. *)
Lemma header_a1_layout (ws : worksheet) :
  value_at ws 1 1 = PStr "Line Item" ->
  is_blank (value_at ws 2 1) = true ->
  line_item_col_idx (columns_of ws) = 1 /\ insert_row_of ws = 2.
Proof.
  intros H1 H2.
  assert (E : first_match exact_header ws (range 1 11) (range 1 11) = Some (1, 1)).
  { unfold range. apply first_match_seq_Some; [simpl; lia|simpl; lia| |].
    - rewrite H1. reflexivity.
    - intros r' c' Hr Hc [Hlt|[_ Hlt]]; lia. }
  assert (C : columns_of ws = mkColumns 1 2 (Some 1)).
  { rewrite columns_of_located. unfold located_columns. rewrite E. reflexivity. }
  split; [rewrite C; reflexivity|].
  pose proof (insert_row_core ws) as H. cbv zeta in H.
  destruct H as (r & _ & Hr & _ & G1 & _ & _ & _ & G5).
  rewrite C in G1, G5. cbn [header_row line_item_col_idx start_row_of] in G1, G5.
  rewrite Hr. destruct (decide (r = 2)) as [->|Hne]; [reflexivity|].
  rewrite (G5 2) in H2 by lia. discriminate.
Qed.

(** C2, as the code has it.  After a successful call, item [i] has its
    amount, as a float, in cell [(R + i, 2)] and, when the description
    column is not column 2, its description in cell [(R + i, description
    column)]; [R] is the insertion row and the items carry their description
    under the key [line_item].  Items built as line items on a template that
    is a workbook, with a writable output path other than the template's,
    make the call succeed.  For a template with the header "Line Item" in A1
    and nothing else in the first 10 by 10 block, PERMITS 10000.00 and
    EXCAVATION 15000.00 end up in A2, B2, A3, B3. *)
Theorem C2_items_written_in_order :
  (forall writable fs items t o fs',
     populate_template writable fs items t o = (fs', true) ->
     exists tmpl out,
       fs !! t = Some (Workbook tmpl) /\ fs' !! o = Some (Workbook out) /\
       forall i item, items !! i = Some item ->
         exists d a f,
           getitem item "line_item" = Ok d /\ getitem item "amount" = Ok a /\
           float_ a = Ok f /\
           value_at out (insert_row_of tmpl + i) 2 = PFloat f /\
           (line_item_col_idx (columns_of tmpl) <> 2 ->
            value_at out (insert_row_of tmpl + i)
                     (line_item_col_idx (columns_of tmpl)) = d)) /\
  (forall writable fs items t o tmpl,
     fs !! t = Some (Workbook tmpl) -> t <> o -> writable o = true ->
     Forall is_line_item items ->
     snd (populate_template writable fs items t o) = true) /\
  (forall writable fs t o tmpl,
     fs !! t = Some (Workbook tmpl) -> t <> o -> writable o = true ->
     value_at tmpl 1 1 = PStr "Line Item" ->
     (forall row col, 1 <= row <= 10 -> 1 <= col <= 10 -> (row, col) <> (1, 1) ->
                      value_at tmpl row col = PNone) ->
     exists out,
       populate_template writable fs [permits; excavation] t o
         = (<[o := Workbook out]> fs, true) /\
       value_at out 2 1 = PStr "PERMITS" /\
       value_at out 2 2 = PFloat (float_of_Z 10000) /\
       value_at out 3 1 = PStr "EXCAVATION" /\
       value_at out 3 2 = PFloat (float_of_Z 15000)).
Proof.
  split; [|split].
  - intros writable fs items t o fs' H.
    apply populate_template_true in H as (tmpl & out & Ht & _ & _ & Hf & ->).
    exists tmpl, out. split; [exact Ht|]. split; [apply lookup_insert_eq|].
    apply fill_worksheet_spec. exact Hf.
  - intros writable fs items t o tmpl Ht Hto Hw Hitems.
    destruct (fill_worksheet_line_items tmpl items Hitems) as (out & Hf).
    rewrite (populate_template_runs _ _ _ _ _ _ _ Ht Hto Hw Hf). reflexivity.
  - intros writable fs t o tmpl Ht Hto Hw H11 Hrest.
    assert (Hitems : Forall is_line_item [permits; excavation]).
    { repeat constructor; eexists; eexists; reflexivity. }
    destruct (fill_worksheet_line_items tmpl _ Hitems) as (out & Hf).
    exists out. split; [apply populate_template_runs with (tmpl := tmpl); assumption|].
    destruct (header_a1_layout tmpl H11) as [Hc Hr].
    { rewrite Hrest; [reflexivity|lia|lia|congruence]. }
    apply fill_worksheet_spec in Hf as (_ & _ & Hv).
    rewrite Hc, Hr in Hv.
    destruct (Hv 0 permits eq_refl) as (d0 & a0 & f0 & D0 & A0 & F0 & V0 & W0).
    destruct (Hv 1 excavation eq_refl) as (d1 & a1 & f1 & D1 & A1 & F1 & V1 & W1).
    injection D0 as <-. injection A0 as <-. injection F0 as <-.
    injection D1 as <-. injection A1 as <-. injection F1 as <-.
    split; [apply W0; lia|]. split; [exact V0|].
    split; [apply W1; lia|exact V1].
Qed.

Lemma header_in_a1_elsewhere row col :
  (row, col) <> (1, 1) -> value_at header_in_a1 row col = PNone.
Proof.
  intros Hne. unfold value_at, cell_at, header_in_a1.
  rewrite lookup_singleton_ne by congruence. reflexivity.
Defined.

(** C2 at a concrete call: the scenario of the specification, on the
    template that holds nothing but the header in A1. *)
Lemma C2_witness :
  snd (populate_template any_path_writable (one_template header_in_a1)
         [permits; excavation] "template.xlsx" "out.xlsx") = true /\
  exists out,
    populate_template any_path_writable (one_template header_in_a1)
      [permits; excavation] "template.xlsx" "out.xlsx"
      = (<["out.xlsx" := Workbook out]> (one_template header_in_a1), true) /\
    value_at out 2 1 = PStr "PERMITS" /\
    value_at out 2 2 = PFloat (float_of_Z 10000) /\
    value_at out 3 1 = PStr "EXCAVATION" /\
    value_at out 3 2 = PFloat (float_of_Z 15000).
Proof.
  split.
  - apply (proj1 (proj2 C2_items_written_in_order)
             any_path_writable (one_template header_in_a1) [permits; excavation]
             "template.xlsx" "out.xlsx" header_in_a1).
    + vm_compute. reflexivity.
    + discriminate.
    + reflexivity.
    + repeat constructor; eexists; eexists; reflexivity.
  - apply (proj2 (proj2 C2_items_written_in_order)
             any_path_writable (one_template header_in_a1)
             "template.xlsx" "out.xlsx" header_in_a1).
    + vm_compute. reflexivity.
    + discriminate.
    + reflexivity.
    + reflexivity.
    + intros row col _ _ Hne. apply header_in_a1_elsewhere. exact Hne.
Defined.

(** C2 fails as stated.  With the header in B1 the description column is
    column 2: the amount is written over the description, and B2 holds the
    number, not "PERMITS".  And an item that carries its text under the key
    [description], as the scenario is written, makes the call fail after the
    copy: the output is the untouched template. *)
Lemma C2_counterexample :
  (let out := filled header_in_b1 [permits] in
   populate_template any_path_writable (one_template header_in_b1)
     [permits] "template.xlsx" "out.xlsx"
     = (<["out.xlsx" := Workbook out]> (one_template header_in_b1), true) /\
   line_item_col_idx (columns_of header_in_b1) = 2 /\
   insert_row_of header_in_b1 = 2 /\
   getitem permits "line_item" = Ok (PStr "PERMITS") /\
   value_at out 2 2 = PFloat (float_of_Z 10000) /\
   value_at out 2 2 <> PStr "PERMITS") /\
  populate_template any_path_writable (one_template header_in_a1)
    [permits_by_description] "template.xlsx" "out.xlsx"
    = (<["out.xlsx" := Workbook header_in_a1]> (one_template header_in_a1), false).
Proof.
  split; [|vm_compute; reflexivity].
  intros out.
  assert (V : value_at out 2 2 = PFloat (float_of_Z 10000))
    by (vm_compute; reflexivity).
  split; [vm_compute; reflexivity|]. split; [vm_compute; reflexivity|].
  split; [vm_compute; reflexivity|]. split; [vm_compute; reflexivity|].
  split; [exact V|]. rewrite V. discriminate.
Qed.

(** C5, as the code has it.  A successful call changes cells among the
    target cells only: every other cell of the output has the value and the
    style it has in the template, the target cells keep their style, every
    other file (the template among them) is as before, and the first
    description cell written was empty or whitespace-only in the template.
    Nothing is said about the other target cells: they are written whether
    or not the template has content there. *)
Theorem C5_only_target_cells_change :
  forall writable fs items t o fs',
    populate_template writable fs items t o = (fs', true) ->
    exists tmpl out,
      fs !! t = Some (Workbook tmpl) /\
      fs' = <[o := Workbook out]> fs /\
      fs' !! t = fs !! t /\
      (forall row col,
         ~ target_cell (line_item_col_idx (columns_of tmpl)) (insert_row_of tmpl)
                       (length items) row col ->
         cell_at out row col = cell_at tmpl row col) /\
      (forall row col, style_at out row col = style_at tmpl row col) /\
      empty_or_whitespace
        (value_at tmpl (insert_row_of tmpl) (line_item_col_idx (columns_of tmpl)))
        = true.
Proof.
  intros writable fs items t o fs' H.
  pose proof (populate_template_keeps_template writable fs items t o) as Hk.
  rewrite H in Hk. cbn [fst] in Hk.
  apply populate_template_true in H as (tmpl & out & Ht & _ & _ & Hf & ->).
  exists tmpl, out. split; [exact Ht|]. split; [reflexivity|]. split; [exact Hk|].
  apply fill_worksheet_spec in Hf as (F1 & F2 & _).
  split; [exact F1|]. split; [exact F2|].
  pose proof (insert_row_core tmpl) as C. cbv zeta in C.
  destruct C as (r & _ & Hr & _ & _ & _ & _ & G4 & _).
  rewrite Hr, <- is_blank_empty_or_whitespace. exact G4.
Qed.

Lemma C5_witness :
  let fs := one_template header_and_total in
  let items := [permits; excavation] in
  let fs' := fst (populate_template any_path_writable fs items "template.xlsx" "out.xlsx") in
  exists tmpl out,
    fs !! "template.xlsx" = Some (Workbook tmpl) /\
    fs' = <["out.xlsx" := Workbook out]> fs /\
    fs' !! "template.xlsx" = fs !! "template.xlsx" /\
    (forall row col,
       ~ target_cell (line_item_col_idx (columns_of tmpl)) (insert_row_of tmpl)
                     (length items) row col ->
       cell_at out row col = cell_at tmpl row col) /\
    (forall row col, style_at out row col = style_at tmpl row col) /\
    empty_or_whitespace
      (value_at tmpl (insert_row_of tmpl) (line_item_col_idx (columns_of tmpl)))
      = true.
Proof.
  intros fs items fs'.
  apply (C5_only_target_cells_change any_path_writable fs items
           "template.xlsx" "out.xlsx" fs').
  vm_compute. reflexivity.
Defined.

(** C5 fails as stated.  The template has a totals row in row 3; the first
    empty description cell is A2, so two items fill rows 2 and 3 and the
    populated row 3 of the template, its formula in B3 included, is
    overwritten. *)
Lemma C5_counterexample :
  let out := filled header_and_total [permits; excavation] in
  populate_template any_path_writable (one_template header_and_total)
    [permits; excavation] "template.xlsx" "out.xlsx"
    = (<["out.xlsx" := Workbook out]> (one_template header_and_total), true) /\
  value_at header_and_total 3 1 = PStr "TOTAL" /\
  value_at out 3 1 = PStr "EXCAVATION" /\
  value_at header_and_total 3 2 = PStr "=SUM(B2:B2)" /\
  value_at out 3 2 = PFloat (float_of_Z 15000).
Proof.
  intros out. repeat split; vm_compute; reflexivity.
Qed.

(** C6.  The template file is the same after any call.  With an empty list
    of items, a template that is a workbook and a writable output path
    other than the template's, the call succeeds and the output sheet shows
    the same value (so the same formula) and the same style as the template
    at every coordinate. *)
Theorem C6_empty_list_round_trip :
  (forall writable fs items t o,
     fst (populate_template writable fs items t o) !! t = fs !! t) /\
  (forall writable fs t o tmpl,
     fs !! t = Some (Workbook tmpl) -> t <> o -> writable o = true ->
     exists out,
       populate_template writable fs [] t o = (<[o := Workbook out]> fs, true) /\
       same_cells tmpl out).
Proof.
  split; [apply populate_template_keeps_template|].
  intros writable fs t o tmpl Ht Hto Hw.
  destruct (fill_worksheet_line_items tmpl [] ltac:(constructor)) as (out & Hf).
  exists out. split; [apply populate_template_runs with (tmpl := tmpl); assumption|].
  apply fill_worksheet_spec in Hf as (F1 & _ & _).
  intros row col. symmetry. apply F1. intros [Hr _]. cbn [length] in Hr. lia.
Qed.

Lemma C6_witness :
  exists out,
    populate_template any_path_writable (one_template header_and_total) []
      "template.xlsx" "out.xlsx"
      = (<["out.xlsx" := Workbook out]> (one_template header_and_total), true) /\
    same_cells header_and_total out.
Proof.
  apply (proj2 C6_empty_list_round_trip any_path_writable
           (one_template header_and_total) "template.xlsx" "out.xlsx"
           header_and_total).
  - vm_compute. reflexivity.
  - discriminate.
  - reflexivity.
Defined.

(** ** The claims about [parse_with_ai] *)

Lemma validate_shape str_other parsed_data : forall validated_data result,
  validate str_other validated_data parsed_data = Ok result ->
  Forall trimmed_item validated_data -> Forall trimmed_item result.
Proof.
  induction parsed_data as [|item rest IH]; intros acc result H Hacc.
  - simpl in H. injection H as <-. exact Hacc.
  - cbn [validate] in H.
    destruct item as [| | | | | |d]; try (eapply IH; eassumption).
    destruct (dict_get d "line_item") as [li|]; [|eapply IH; eassumption].
    destruct (dict_get d "amount") as [am|]; [|eapply IH; eassumption].
    destruct (float_ am) as [f|e].
    + eapply IH; [eassumption|]. apply Forall_app. split; [exact Hacc|].
      constructor; [|constructor].
      exists (strip (str_ str_other li)), f. split; [reflexivity|apply strip_idem].
    + destruct (is_value_or_type_error e); [|discriminate].
      eapply IH; eassumption.
Qed.

(** The loop over a concatenation is the loop over the first part, then
    over the second. *)
Lemma validate_app str_other l1 : forall acc l2,
  validate str_other acc (l1 ++ l2) =
    bind (validate str_other acc l1) (fun acc' => validate str_other acc' l2).
Proof.
  induction l1 as [|item l1 IH]; intros acc l2; [reflexivity|].
  cbn [app validate].
  destruct item as [| | | | | |d]; try apply IH.
  destruct (dict_get d "line_item"); [|apply IH].
  destruct (dict_get d "amount") as [am|]; [|apply IH].
  destruct (float_ am) as [f|e]; [apply IH|].
  destruct (is_value_or_type_error e); [apply IH|reflexivity].
Qed.

(** An entry whose coercion raises [ValueError] or [TypeError] is dropped
    and the entries around it are treated as if it were not there. *)
Lemma validate_drops_one str_other acc l1 l2 d line_item amount e :
  dict_get d "line_item" = Some line_item ->
  dict_get d "amount" = Some amount ->
  float_ amount = Raise e -> is_value_or_type_error e = true ->
  validate str_other acc (l1 ++ PDict d :: l2) = validate str_other acc (l1 ++ l2).
Proof.
  intros Hl Ha Hf He. rewrite !validate_app.
  destruct (validate str_other acc l1) as [acc'|]; [|reflexivity].
  cbn [bind validate]. rewrite Hl, Ha, Hf, He. reflexivity.
Qed.

(** An unparseable response and a response that is not an array give the
    empty list. *)
Lemma parse_with_ai_no_array build_prompt json_loads str_other model text_content :
  (forall text v, json_loads text = Ok v -> forall l, v <> PList l) ->
  parse_with_ai build_prompt json_loads str_other model text_content = [].
Proof.
  intros H. unfold parse_with_ai. destruct model as [generate_content|]; [|reflexivity].
  destruct (generate_content _) as [text|]; [|reflexivity]. cbn [bind].
  destruct (json_loads _) as [v|] eqn:E; [|reflexivity]. cbn [bind].
  destruct v; try reflexivity. exfalso. eapply H; [exact E|reflexivity].
Qed.

(** C7, as the code has it.  Every item of the result is a dictionary
    with a description that has no whitespace at either end and an amount
    that is a float; the description may be empty and the float may be
    negative, infinite or NaN. *)
Theorem C7_structurer_items
  (build_prompt : string -> string) (json_loads : string -> outcome pyval)
  (str_other : pyval -> string) (model : option (string -> outcome string))
  (text_content : string) (item : pyval) :
  In item (parse_with_ai build_prompt json_loads str_other model text_content) ->
  trimmed_item item.
Proof.
  unfold parse_with_ai. destruct model as [generate_content|]; [|intros []].
  destruct (generate_content _) as [text|]; [|intros []]. cbn [bind].
  destruct (json_loads _) as [v|]; [|intros []]. cbn [bind].
  destruct v as [| | | | |l|]; try (intros []).
  destruct (validate str_other [] l) as [result|] eqn:E; [|intros []].
  intros Hin. apply validate_shape in E; [|constructor].
  rewrite List.Forall_forall in E. apply E. exact Hin.
Qed.

(** C7 on a response with one entry, a blank description and the amount
    [-5]. *)
Lemma C7_witness :
  trimmed_item (line_item_dict "" (float_of_Z (-5))).
Proof.
  apply (C7_structurer_items (fun t => t) (decodes_to (PList [blank_and_negative]))
           no_str (model_answers "[...]") "document").
  left. reflexivity.
Defined.

(** C7 fails as stated.  For a response with the entries
    [{line_item: "  ", amount: -5}] and [{line_item: "X", amount: NaN}] both
    are kept: the first with an empty description and a negative amount,
    the second with an amount that is not finite. *)
Lemma C7_counterexample :
  parse_with_ai (fun t => t) (decodes_to (PList [blank_and_negative; not_a_number]))
    no_str (model_answers "[...]") "document"
    = [line_item_dict "" (float_of_Z (-5)); line_item_dict "X" S754_nan] /\
  is_nonnegative (float_of_Z (-5)) = false /\
  is_finite S754_nan = false /\
  strip "" = "".
Proof. repeat split; vm_compute; reflexivity. Qed.

(** C8 at the failing input.  An integer amount too large for a float makes
    [float] raise [OverflowError], which the handler of the loop does not
    catch: the loop is left and the whole response, the good entry
    included, is lost.  An amount such as "N/A" at the same place is dropped
    alone. *)
Theorem C8_overflow_discards_siblings :
  float_ (PInt (10 ^ 400)) = Raise OverflowError /\
  validate no_str [] [entry_a; entry_huge] = Raise OverflowError /\
  parse_with_ai (fun t => t) (decodes_to (PList [entry_a; entry_huge]))
    no_str (model_answers "[...]") "document" = [] /\
  parse_with_ai (fun t => t) (decodes_to (PList [entry_a; entry_not_available]))
    no_str (model_answers "[...]") "document" = [line_item_dict "A" (float_of_Z 1)].
Proof. repeat split; vm_compute; reflexivity. Qed.

(** ** The claim about [extract_text_from_file] *)

Lemma in_list_not_pdf ext l :
  in_list ext l = true -> in_list ".pdf" l = false -> String.eqb ext ".pdf" = false.
Proof.
  intros H1 H2. destruct (String.eqb_spec ext ".pdf") as [->|]; [|reflexivity].
  rewrite H1 in H2. discriminate.
Qed.

Lemma in_list_disjoint ext l1 l2 :
  in_list ext l1 = true ->
  forallb (fun x => negb (in_list x l2)) l1 = true ->
  in_list ext l2 = false.
Proof.
  unfold in_list at 1. intros H1 H2. apply existsb_exists in H1 as (x & Hx & He).
  apply String.eqb_eq in He. subst x.
  rewrite forallb_forall in H2. apply H2 in Hx. apply negb_true_iff in Hx. exact Hx.
Qed.

(** C9, as the code has it.  A missing file raises [FileNotFoundError].
    For a file that exists the call returns a text and never raises: the
    empty text for an unsupported extension, for a PDF extraction that does
    not return and for a spreadsheet extraction that fails; a bracketed
    message that names the file when OCR is unavailable or fails. *)
Theorem C9_extraction_failures (env : environment) (file_path : string) :
  (path_exists env file_path = false ->
   extract_text_from_file env file_path = Raise FileNotFoundError) /\
  (path_exists env file_path = true ->
   let file_ext := lower (path_suffix file_path) in
   (exists text, extract_text_from_file env file_path = Ok text) /\
   (file_ext = ".pdf" ->
    (forall text, _extract_from_pdf env file_path <> Ok text) ->
    extract_text_from_file env file_path = Ok "") /\
   (in_list file_ext image_extensions = true ->
    PYTESSERACT_AVAILABLE env = false ->
    extract_text_from_file env file_path =
      Ok ("[OCR NOT AVAILABLE] Image file: " ++ path_name file_path ++
          ". Please convert to PDF or use text-based documents for processing.")) /\
   (in_list file_ext image_extensions = true ->
    PYTESSERACT_AVAILABLE env = true ->
    forall e, image_to_string env file_path = Raise e ->
    extract_text_from_file env file_path =
      Ok ("[OCR FAILED] Image file: " ++ path_name file_path ++
          ". Error: " ++ exn_text env e)) /\
   (in_list file_ext excel_extensions = true ->
    (forall text, bind (excel_sheets env file_path) (add_sheets "") <> Ok text) ->
    extract_text_from_file env file_path = Ok "") /\
   (file_ext <> ".pdf" ->
    in_list file_ext image_extensions = false ->
    in_list file_ext excel_extensions = false ->
    extract_text_from_file env file_path = Ok "")).
Proof.
  unfold extract_text_from_file, image_extensions, excel_extensions.
  split; [intros ->; reflexivity|]. intros ->. cbn [negb].
  set (file_ext := lower (path_suffix file_path)). cbv zeta.
  split; [|split; [|split; [|split; [|split]]]].
  - destruct (String.eqb file_ext ".pdf");
      [destruct (_extract_from_pdf env file_path); eauto|].
    destruct (in_list file_ext _).
    { unfold _extract_from_image.
      destruct (negb _); [eauto|]. destruct (image_to_string _ _); eauto. }
    destruct (in_list file_ext _); [|eauto].
    unfold _extract_from_excel. destruct (bind _ _); eauto.
  - intros -> Hpdf. cbn [String.eqb Ascii.eqb Bool.eqb].
    destruct (_extract_from_pdf env file_path) as [text|]; [|reflexivity].
    exfalso. apply (Hpdf text). reflexivity.
  - intros Himg Hocr. rewrite (in_list_not_pdf _ _ Himg eq_refl), Himg.
    unfold _extract_from_image. rewrite Hocr. reflexivity.
  - intros Himg Hocr e He. rewrite (in_list_not_pdf _ _ Himg eq_refl), Himg.
    unfold _extract_from_image. rewrite Hocr, He. reflexivity.
  - intros Hxls Hfail. rewrite (in_list_not_pdf _ _ Hxls eq_refl).
    rewrite (in_list_disjoint _ _ [".png"; ".jpg"; ".jpeg"; ".bmp"; ".tiff"] Hxls eq_refl).
    rewrite Hxls.
    unfold _extract_from_excel.
    destruct (bind _ _) as [text|]; [|reflexivity].
    exfalso. apply (Hfail text). reflexivity.
  - intros Hpdf Himg Hxls. apply String.eqb_neq in Hpdf.
    rewrite Hpdf, Himg, Hxls. reflexivity.
Qed.

Lemma C9_witness :
  extract_text_from_file (bare_environment true) "notes.txt" = Ok "".
Proof.
  apply (proj2 (C9_extraction_failures (bare_environment true) "notes.txt") eq_refl).
  - discriminate.
  - reflexivity.
  - reflexivity.
Defined.

(** C9 fails as stated.  A missing file raises instead of giving the empty
    text, and an image without OCR, or with OCR that fails, gives a message
    that is not empty. *)
Lemma C9_counterexample :
  extract_text_from_file (bare_environment false) "missing.pdf"
    = Raise FileNotFoundError /\
  extract_text_from_file (bare_environment true) "scan.png"
    = Ok ("[OCR NOT AVAILABLE] Image file: scan.png. " ++
          "Please convert to PDF or use text-based documents for processing.") /\
  extract_text_from_file failing_ocr_environment "site/scan.JPG"
    = Ok "[OCR FAILED] Image file: scan.JPG. Error: tesseract is not installed" /\
  extract_text_from_file (bare_environment true) "scan.png" <> Ok "".
Proof.
  split; [reflexivity|]. split; [reflexivity|]. split; [reflexivity|].
  discriminate.
Qed.

(** ** Further properties of [populate_template] *)




(** X1.  A call that returns [False] has written no item: either the file
    system is as before, or the output path holds a copy of the template
    file and nothing else has changed.  Whatever the call returns, only the
    output path can change. *)
Theorem populate_template_failure_writes_no_item writable fs items t o :
  (forall path, path <> o ->
     fst (populate_template writable fs items t o) !! path = fs !! path) /\
  (snd (populate_template writable fs items t o) = false ->
   fst (populate_template writable fs items t o) = fs \/
   exists f, fs !! t = Some f /\ t <> o /\
             fst (populate_template writable fs items t o) = <[o := f]> fs).
Proof.
  unfold populate_template, copy2.
  destruct (String.eqb t o) eqn:Eto; [split; [reflexivity|left; reflexivity]|].
  apply String.eqb_neq in Eto.
  destruct (fs !! t) as [f|] eqn:Et; [|split; [reflexivity|left; reflexivity]].
  destruct (writable o) eqn:Ew; [|split; [reflexivity|left; reflexivity]].
  destruct (bind _ _) as [fs2|e] eqn:Eb; cbn [fst snd].
  - split; [|discriminate].
    apply bind_Ok in Eb as (ws & _ & Eb). apply bind_Ok in Eb as (out & _ & Eb).
    unfold save in Eb. rewrite Ew in Eb. injection Eb as <-.
    intros path Hp. rewrite !lookup_insert_ne by congruence. reflexivity.
  - split.
    + intros path Hp. rewrite lookup_insert_ne by congruence. reflexivity.
    + intros _. right. exists f. auto.
Qed.

Lemma populate_template_failure_witness :
  let result := populate_template any_path_writable (one_template header_in_a1)
                  [permits_by_description] "template.xlsx" "out.xlsx" in
  fst result = one_template header_in_a1 \/
  exists f, one_template header_in_a1 !! "template.xlsx" = Some f /\
            "template.xlsx" <> "out.xlsx" /\
            fst result = <["out.xlsx" := f]> (one_template header_in_a1).
Proof.
  apply (proj2 (populate_template_failure_writes_no_item any_path_writable
                  (one_template header_in_a1) [permits_by_description]
                  "template.xlsx" "out.xlsx")).
  vm_compute. reflexivity.
Defined.


(** Numeric text as an amount: refused for a single item, taken for the
    sixth of eight. *)
Example numeric_text_amount :
  items_accepted 1 0 [permits_as_text] = false /\
  items_accepted 8 0 [permits; permits; permits; permits; permits;
                      permits_as_text; excavation; excavation] = true.
Proof. split; reflexivity. Qed.

Lemma header_is_text test v :
  (test = exact_header \/ test = loose_header) -> test v = true ->
  exists s, v = PStr s /\ s <> "".
Proof.
  intros [-> | ->]; unfold exact_header, loose_header, nonempty_str;
    destruct v as [| | | |s| |]; try discriminate;
    destruct (String.eqb_spec s ""); try discriminate; eauto.
Qed.

(** X3.  The description column is one of columns 1 to 10, and column 1
    when no header is found; a recorded header row is one of rows 1 to 10
    and holds a non-empty string in the description column; the insertion
    row is at least 2 and lies below the header row. *)
Theorem layout_bounds (ws : worksheet) :
  1 <= line_item_col_idx (columns_of ws) <= 10 /\
  2 <= insert_row_of ws /\
  match header_row (columns_of ws) with
  | Some h =>
      1 <= h <= 10 /\ h < insert_row_of ws /\
      exists s, value_at ws h (line_item_col_idx (columns_of ws)) = PStr s /\ s <> ""
  | None => line_item_col_idx (columns_of ws) = 1
  end.
Proof.
  pose proof (insert_row_core ws) as H. cbv zeta in H.
  destruct H as (r & _ & Hr & _ & G1 & _).
  rewrite Hr. revert G1. rewrite columns_of_located.
  unfold located_columns, range.
  destruct (first_match exact_header ws _ _) as [[c0 r0]|] eqn:E1.
  - cbn [header_row line_item_col_idx option_map snd start_row_of]. intros G1.
    apply first_match_seq_inv in E1 as (Hr0 & Hc0 & Ht). simpl in Hr0, Hc0.
    split; [lia|]. split; [lia|]. split; [lia|]. split; [lia|].
    apply (header_is_text exact_header); auto.
  - destruct (first_match loose_header ws _ _) as [[c0 r0]|] eqn:E2;
      cbn [header_row line_item_col_idx option_map snd start_row_of]; intros G1.
    + apply first_match_seq_inv in E2 as (Hr0 & Hc0 & Ht). simpl in Hr0, Hc0.
      split; [lia|]. split; [lia|]. split; [lia|]. split; [lia|].
      apply (header_is_text loose_header); auto.
    + split; [lia|]. split; [lia|reflexivity].
Qed.

Lemma find_seq_agree (P Q : nat -> bool) a n :
  (forall x, a <= x < a + n -> P x = Q x) -> find P (seq a n) = find Q (seq a n).
Proof.
  revert a. induction n as [|n IH]; intros a H; simpl; [reflexivity|].
  rewrite (H a) by lia. rewrite IH; [reflexivity|]. intros x Hx. apply H. lia.
Qed.

Lemma first_match_seq_agree test ws ws' a n b m :
  (forall r c, a <= r < a + n -> b <= c < b + m ->
               value_at ws r c = value_at ws' r c) ->
  first_match test ws (seq a n) (seq b m) = first_match test ws' (seq a n) (seq b m).
Proof.
  revert a. induction n as [|n IH]; intros a H; simpl; [reflexivity|].
  rewrite (find_seq_agree _ (fun col => test (value_at ws' a col))).
  - rewrite IH; [reflexivity|]. intros r c Hr Hc. apply H; [lia|exact Hc].
  - intros c Hc. rewrite H; [reflexivity|lia|exact Hc].
Qed.

Lemma located_columns_agree ws ws' :
  agree_on_block ws ws' -> located_columns ws = located_columns ws'.
Proof.
  intros H. unfold located_columns, range.
  rewrite (first_match_seq_agree exact_header ws ws')
    by (intros r c Hr Hc; apply H; simpl in Hr, Hc; lia).
  rewrite (first_match_seq_agree loose_header ws ws')
    by (intros r c Hr Hc; apply H; simpl in Hr, Hc; lia).
  reflexivity.
Qed.

(** X4.  The description column and the header row depend on the values in
    rows 1 to 10, columns 1 to 10 alone: two sheets that agree there get
    the same columns, whatever else they hold. *)
Theorem columns_depend_on_block_only (ws ws' : worksheet) :
  agree_on_block ws ws' -> columns_of ws = columns_of ws'.
Proof.
  intros H. rewrite !columns_of_located. apply located_columns_agree. exact H.
Qed.

Lemma columns_depend_on_block_only_witness :
  columns_of header_in_a1 = columns_of header_and_note.
Proof.
  apply columns_depend_on_block_only.
  intros row col Hr Hc. unfold value_at, cell_at, header_and_note.
  rewrite lookup_insert_ne; [reflexivity|].
  intros [= <- <-]. lia.
Defined.

Lemma first_blank_unique (P : nat -> bool) start r r' :
  start <= r -> P r = true -> (forall x, start <= x < r -> P x = false) ->
  start <= r' -> P r' = true -> (forall x, start <= x < r' -> P x = false) ->
  r = r'.
Proof.
  intros H1 H2 H3 H1' H2' H3'.
  destruct (lt_eq_lt_dec r r') as [[Hlt|Heq]|Hgt]; [|exact Heq|].
  - rewrite (H3' r) in H2 by lia. discriminate.
  - rewrite (H3 r') in H2' by lia. discriminate.
Qed.

(** X5.  Once the columns are settled, the insertion row depends on the
    description column alone: two sheets with the same columns and the same
    description column get the same insertion row, whatever the other
    columns, the amount column among them, hold. *)
Theorem insert_row_depends_on_description_column (ws ws' : worksheet) :
  columns_of ws = columns_of ws' ->
  (forall row, value_at ws row (line_item_col_idx (columns_of ws))
               = value_at ws' row (line_item_col_idx (columns_of ws))) ->
  insert_row_of ws = insert_row_of ws'.
Proof.
  intros Hc Hv.
  pose proof (insert_row_core ws) as H. cbv zeta in H.
  destruct H as (r & _ & Hr & _ & G1 & _ & _ & G4 & G5).
  pose proof (insert_row_core ws') as H'. cbv zeta in H'.
  destruct H' as (r' & _ & Hr' & _ & G1' & _ & _ & G4' & G5').
  rewrite Hr, Hr'. rewrite <- Hc in G1', G4', G5'.
  rewrite <- Hv in G4'.
  apply (first_blank_unique
           (fun x => is_blank (value_at ws x (line_item_col_idx (columns_of ws))))
           (start_row_of (header_row (columns_of ws)))); auto.
  intros x Hx. rewrite Hv. apply G5'. exact Hx.
Qed.

Lemma insert_row_depends_on_description_column_witness :
  insert_row_of header_in_a1 = insert_row_of header_and_amount.
Proof.
  apply insert_row_depends_on_description_column.
  - vm_compute. reflexivity.
  - intros row. unfold value_at, cell_at, header_and_amount.
    rewrite lookup_insert_ne; [reflexivity|].
    assert (E : line_item_col_idx (columns_of header_in_a1) = 1)
      by (vm_compute; reflexivity).
    rewrite E. intros Heq. discriminate Heq.
Defined.

Lemma first_match_seq_before test ws a n b m r c :
  first_match test ws (seq a n) (seq b m) = Some (c, r) ->
  forall r' c', a <= r' < a + n -> b <= c' < b + m ->
                row_major_lt r' c' r c -> test (value_at ws r' c') = false.
Proof.
  revert a. induction n as [|n IH]; intros a H; simpl in H; [discriminate|].
  destruct (find _ (seq b m)) as [col|] eqn:E.
  - injection H as -> ->. apply find_seq_inv in E as (Hc & _ & Hb).
    intros r' c' Hr' Hc' [Hlt|[-> Hlt]]; [lia|]. apply Hb. lia.
  - intros r' c' Hr' Hc' Hlt.
    destruct (decide (r' = a)) as [->|Hne].
    + apply (find_seq_None_inv _ _ _ E). exact Hc'.
    + apply (IH _ H); [lia|exact Hc'|exact Hlt].
Qed.

(** With an exact header in the template, a sheet that is the same up to
    the header row has the same columns. *)
Lemma exact_header_columns_stable ws ws' c h :
  first_match exact_header ws (range 1 11) (range 1 11) = Some (c, h) ->
  (forall row col, row <= h -> value_at ws' row col = value_at ws row col) ->
  located_columns ws' = located_columns ws.
Proof.
  intros E Hsame. unfold located_columns. rewrite E.
  unfold range in *.
  pose proof (first_match_seq_inv _ _ _ _ _ _ _ _ E) as (Hr & Hc & Ht).
  rewrite (first_match_seq_Some exact_header ws' 1 (11 - 1) 1 (11 - 1) h c);
    [reflexivity|exact Hr|exact Hc| |].
  - rewrite Hsame by lia. exact Ht.
  - intros r' c' Hr' Hc' Hlt.
    rewrite Hsame by (unfold row_major_lt in Hlt; lia).
    apply (first_match_seq_before _ _ _ _ _ _ _ _ E); assumption.
Qed.

Lemma first_match_seq_None_inv test ws a n b m :
  first_match test ws (seq a n) (seq b m) = None ->
  forall r c, a <= r < a + n -> b <= c < b + m -> test (value_at ws r c) = false.
Proof.
  revert a. induction n as [|n IH]; intros a H r c Hr Hc; [lia|].
  simpl in H. destruct (find _ (seq b m)) as [col|] eqn:E; [discriminate|].
  destruct (decide (r = a)) as [->|Hne].
  - apply (find_seq_None_inv _ _ _ E). exact Hc.
  - apply (IH _ H); [lia|exact Hc].
Qed.

(** X6.  A second run on the output of a first one appends: when the
    template has an exact header, the description column is not column 2
    and no description is blank, the output has the same columns as the
    template and its insertion row lies below the rows the first run
    wrote. *)
Theorem second_run_appends writable fs items t o fs1 tmpl :
  populate_template writable fs items t o = (fs1, true) ->
  fs !! t = Some (Workbook tmpl) ->
  (exists row col, 1 <= row <= 10 /\ 1 <= col <= 10 /\ holds_line_item tmpl row col) ->
  line_item_col_idx (columns_of tmpl) <> 2 ->
  (forall i item d, items !! i = Some item ->
     getitem item "line_item" = Ok d -> is_blank d = false) ->
  exists out,
    fs1 !! o = Some (Workbook out) /\
    columns_of out = columns_of tmpl /\
    insert_row_of tmpl + length items <= insert_row_of out.
Proof.
  intros Hp Ht (r0 & c0 & Hr0 & Hc0 & Hh) Hcol Hdesc.
  apply populate_template_true in Hp as (tmpl' & out & Ht' & _ & _ & Hf & ->).
  rewrite Ht in Ht'. injection Ht' as <-.
  exists out. split; [apply lookup_insert_eq|].
  apply fill_worksheet_spec in Hf as (F1 & _ & F3).
  pose proof (insert_row_core tmpl) as H. cbv zeta in H.
  destruct H as (r & _ & Hr & _ & G1 & _ & _ & _ & G5).
  rewrite Hr in F1, F3. rewrite Hr. clear Hr.
  destruct (first_match exact_header tmpl (range 1 11) (range 1 11))
    as [[c h]|] eqn:E.
  2:{ exfalso. apply exact_header_iff in Hh.
      rewrite (first_match_seq_None_inv _ _ _ _ _ _ E r0 c0) in Hh;
        [discriminate|simpl; lia|simpl; lia]. }
  assert (Hcols : columns_of tmpl = mkColumns c 2 (Some h)).
  { rewrite columns_of_located. unfold located_columns. rewrite E. reflexivity. }
  rewrite Hcols in Hcol, F1, F3, G1, G5.
  cbn [line_item_col_idx header_row start_row_of] in Hcol, F1, F3, G1, G5.
  assert (Hsame : forall row col, row <= h -> value_at out row col = value_at tmpl row col).
  { intros row col Hrow. unfold value_at. rewrite F1; [reflexivity|].
    intros [Hin _]. lia. }
  assert (Hcols' : columns_of out = columns_of tmpl).
  { rewrite !columns_of_located. eapply exact_header_columns_stable; eassumption. }
  split; [exact Hcols'|].
  pose proof (insert_row_core out) as H'. cbv zeta in H'.
  destruct H' as (r' & _ & Hr' & _ & G1' & _ & _ & G4' & _).
  rewrite Hr'. rewrite Hcols', Hcols in G1', G4'.
  cbn [line_item_col_idx header_row start_row_of] in G1', G4'.
  destruct (le_lt_dec (r + length items) r') as [Hle|Hlt]; [exact Hle|].
  exfalso. destruct (le_lt_dec r r') as [Hin|Hbelow].
  - assert (Hj : r' - r < length items) by lia.
    destruct (lookup_lt_is_Some_2 items (r' - r) Hj) as [item Hitem].
    destruct (F3 _ _ Hitem) as (d & a & f & Hd & _ & _ & _ & Hv).
    replace (r + (r' - r)) with r' in Hv by lia.
    rewrite (Hv Hcol) in G4'. rewrite (Hdesc _ _ _ Hitem Hd) in G4'. discriminate.
  - assert (Hv : value_at out r' c = value_at tmpl r' c).
    { unfold value_at. rewrite F1; [reflexivity|]. intros [Hin _]. lia. }
    rewrite Hv, G5 in G4' by lia. discriminate.
Qed.

Lemma second_run_appends_witness :
  let fs := one_template header_and_total in
  let fs1 := fst (populate_template any_path_writable fs [permits; excavation]
                    "template.xlsx" "out.xlsx") in
  exists out,
    fs1 !! "out.xlsx" = Some (Workbook out) /\
    columns_of out = columns_of header_and_total /\
    insert_row_of header_and_total + 2 <= insert_row_of out.
Proof.
  intros fs fs1.
  apply (second_run_appends any_path_writable fs [permits; excavation]
           "template.xlsx" "out.xlsx" fs1 header_and_total).
  - vm_compute. reflexivity.
  - vm_compute. reflexivity.
  - exists 1, 1. split; [lia|]. split; [lia|].
    exists "Line Item". split; reflexivity.
  - assert (E : line_item_col_idx (columns_of header_and_total) = 1)
      by (vm_compute; reflexivity).
    rewrite E. discriminate.
  - intros [|[|i]] item d Hi Hd; simpl in Hi; try discriminate Hi;
      injection Hi as <-; injection Hd as <-; reflexivity.
Defined.

(** ** Further properties of [parse_with_ai] *)

Lemma parse_with_ai_items build_prompt json_loads str_other model text_content :
  Forall trimmed_item
    (parse_with_ai build_prompt json_loads str_other model text_content).
Proof.
  unfold parse_with_ai. destruct model as [generate_content|]; [|constructor].
  destruct (generate_content _) as [text|]; [|constructor]. cbn [bind].
  destruct (json_loads _) as [v|]; [|constructor]. cbn [bind].
  destruct v as [| | | | |l|]; try constructor.
  destruct (validate str_other [] l) as [result|] eqn:E; [|constructor].
  apply validate_shape in E; [exact E|constructor].
Qed.




Lemma validate_as_filter str_other l : forall acc,
  match validate str_other acc l with
  | Ok result =>
      existsb entry_overflows l = false /\
      result = (acc ++ omap (kept_entry str_other) l)%list
  | Raise _ => existsb entry_overflows l = true
  end.
Proof.
  induction l as [|item l IH]; intros acc.
  - simpl. split; [reflexivity|]. rewrite app_nil_r. reflexivity.
  - cbn [validate existsb omap list_omap].
    revert IH.
    generalize (existsb entry_overflows l) as ov,
               (omap (kept_entry str_other) l) as kept.
    intros ov kept IH. unfold entry_overflows, kept_entry.
    destruct item as [| | | | | |d]; cbn [orb]; try apply IH.
    destruct (dict_get d "line_item") as [li|]; cbn [orb]; [|apply IH].
    destruct (dict_get d "amount") as [am|]; cbn [orb]; [|apply IH].
    destruct (float_ am) as [f|e]; cbn [orb].
    + specialize (IH (acc ++ [line_item_dict (strip (str_ str_other li)) f])%list).
      destruct (validate _ _ l); [|exact IH].
      destruct IH as [IH1 IH2]. split; [exact IH1|].
      rewrite IH2, <- app_assoc. reflexivity.
    + destruct (is_value_or_type_error e); cbn [negb orb]; [apply IH|reflexivity].
Qed.

(** X8.  For a response that is an array, the result is the list of the
    accepted entries in the order of the response, each with its
    description trimmed and its amount as a float, unless some entry makes
    [float] raise something other than [ValueError] or [TypeError]: then
    the result is empty. *)
Theorem parse_with_ai_keeps_order
  (build_prompt : string -> string) (json_loads : string -> outcome pyval)
  (str_other : pyval -> string) (generate_content : string -> outcome string)
  (text_content reply : string) (l : list pyval) :
  generate_content (build_prompt text_content) = Ok reply ->
  json_loads (clean_response reply) = Ok (PList l) ->
  parse_with_ai build_prompt json_loads str_other (Some generate_content) text_content
    = if existsb entry_overflows l then [] else omap (kept_entry str_other) l.
Proof.
  intros Hg Hj. unfold parse_with_ai. rewrite Hg. cbn [bind]. rewrite Hj. cbn [bind].
  pose proof (validate_as_filter str_other l []) as H.
  destruct (validate str_other [] l) as [result|e].
  - destruct H as [-> ->]. reflexivity.
  - rewrite H. reflexivity.
Qed.

Lemma parse_with_ai_keeps_order_witness :
  parse_with_ai (fun t => t)
    (decodes_to (PList [entry_not_available; entry_a; PStr "note"; blank_and_negative]))
    no_str (Some (fun _ => Ok "[...]")) "document"
  = [line_item_dict "A" (float_of_Z 1); line_item_dict "" (float_of_Z (-5))].
Proof.
  rewrite (parse_with_ai_keeps_order (fun t => t)
             (decodes_to (PList [entry_not_available; entry_a; PStr "note";
                                 blank_and_negative]))
             no_str (fun _ => Ok "[...]") "document" "[...]"
             [entry_not_available; entry_a; PStr "note"; blank_and_negative]).
  - vm_compute. reflexivity.
  - reflexivity.
  - reflexivity.
Defined.

(** *** Cleaning the response *)

Lemma string_app_assoc (a b c : string) : ((a ++ b) ++ c = a ++ (b ++ c))%string.
Proof.
  induction a as [|x a IH]; [reflexivity|].
  change (String x ((a ++ b) ++ c) = String x (a ++ (b ++ c)))%string.
  rewrite IH. reflexivity.
Qed.

Lemma contains_step needle c s :
  contains needle (String c s) = String.prefix needle (String c s) || contains needle s.
Proof. reflexivity. Qed.

Lemma sub_json_fence_step eat c s :
  sub_json_fence 0 eat (String c s) =
    if eat && is_space c then sub_json_fence 0 true s
    else if String.prefix "```json" (String c s) then sub_json_fence 6 true s
         else String c (sub_json_fence 0 false s).
Proof. reflexivity. Qed.

Lemma sub_trailing_fence_step c s :
  sub_trailing_fence (String c s) =
    if String.prefix "```" (String c s) && all_space (string_drop 3 (String c s))
    then EmptyString else String c (sub_trailing_fence s).
Proof. reflexivity. Qed.

Lemma prefix_app_l (a b s : string) :
  String.prefix (a ++ b) s = true -> String.prefix a s = true.
Proof.
  revert s. induction a as [|x a IH]; intros s; [destruct s; reflexivity|].
  destruct s as [|y s]; simpl; [discriminate|].
  destruct (ascii_dec x y); [apply IH|discriminate].
Qed.

Lemma prefix_head_mismatch x p c s :
  Ascii.eqb c x = false -> String.prefix (String x p) (String c s) = false.
Proof.
  intros H. simpl. destruct (ascii_dec x c) as [->|]; [|reflexivity].
  rewrite Ascii.eqb_refl in H. discriminate.
Qed.

Lemma prefix_app_false (a b s : string) :
  String.prefix a s = false -> String.prefix (a ++ b) s = false.
Proof.
  intros H. destruct (String.prefix (a ++ b) s) eqn:E; [|reflexivity].
  apply prefix_app_l in E. rewrite E in H. discriminate.
Qed.

Lemma contains_nil needle :
  contains needle "" = String.prefix needle "" || false.
Proof. reflexivity. Qed.

Lemma contains_app_l (a b s : string) :
  contains a s = false -> contains (a ++ b) s = false.
Proof.
  induction s as [|c s IH].
  - rewrite !contains_nil, !orb_false_r. apply prefix_app_false.
  - rewrite !contains_step. intros H. apply orb_false_iff in H as [H1 H2].
    rewrite (IH H2), (prefix_app_false _ _ _ H1). reflexivity.
Qed.

Lemma sub_json_fence_id s :
  contains "```json" s = false -> sub_json_fence 0 false s = s.
Proof.
  induction s as [|c s IH]; [reflexivity|].
  rewrite contains_step, sub_json_fence_step. intros H.
  apply orb_false_iff in H as [H1 H2]. rewrite H1, (IH H2). reflexivity.
Qed.

Lemma sub_trailing_fence_id s :
  contains "```" s = false -> sub_trailing_fence s = s.
Proof.
  induction s as [|c s IH]; [reflexivity|].
  rewrite contains_step, sub_trailing_fence_step. intros H.
  apply orb_false_iff in H as [H1 H2]. rewrite H1, (IH H2). reflexivity.
Qed.

(** X9.  A response without a code fence is only trimmed. *)
Theorem clean_response_without_fence (text : string) :
  contains "```" (strip text) = false -> clean_response text = strip text.
Proof.
  intros H. unfold clean_response.
  rewrite sub_json_fence_id by (apply (contains_app_l "```" "json"); exact H).
  rewrite sub_trailing_fence_id by exact H.
  apply strip_idem.
Qed.

Lemma clean_response_without_fence_witness :
  clean_response (nl ++ "  [1, 2] ") = strip (nl ++ "  [1, 2] ").
Proof.
  apply clean_response_without_fence. reflexivity.
Defined.

Lemma space_is_no_backtick c : is_space c = true -> Ascii.eqb c "`" = false.
Proof.
  intros H. destruct (Ascii.eqb_spec c "`") as [->|]; [discriminate H|reflexivity].
Qed.

Lemma no_backtick_app a b :
  no_backtick a = true -> no_backtick b = true -> no_backtick (a ++ b) = true.
Proof.
  intros Ha Hb. induction a as [|x a IH]; simpl in *; [exact Hb|].
  apply andb_true_iff in Ha as [H1 H2]. rewrite H1, (IH H2). reflexivity.
Qed.

Lemma all_space_no_backtick w : all_space w = true -> no_backtick w = true.
Proof.
  induction w as [|x w IH]; simpl; [reflexivity|]. intros H.
  apply andb_true_iff in H as [H1 H2].
  rewrite (space_is_no_backtick _ H1), (IH H2). reflexivity.
Qed.

Lemma contains_json_fence_tail a :
  no_backtick a = true -> contains "```json" (a ++ "```") = false.
Proof.
  induction a as [|x a IH]; [reflexivity|]. simpl no_backtick. intros H.
  apply andb_true_iff in H as [H1 H2]. apply negb_true_iff in H1.
  change ((String x a ++ "```")%string) with (String x (a ++ "```")).
  rewrite contains_step, (IH H2), orb_false_r.
  apply prefix_head_mismatch. exact H1.
Qed.

Lemma sub_trailing_fence_tail a :
  no_backtick a = true -> sub_trailing_fence (a ++ "```") = a.
Proof.
  induction a as [|x a IH]; [reflexivity|]. simpl no_backtick. intros H.
  apply andb_true_iff in H as [H1 H2]. apply negb_true_iff in H1.
  change ((String x a ++ "```")%string) with (String x (a ++ "```")).
  rewrite sub_trailing_fence_step, (prefix_head_mismatch _ _ _ _ H1), (IH H2).
  reflexivity.
Qed.

Lemma eat_spaces w s :
  all_space w = true -> sub_json_fence 0 true (w ++ s) = sub_json_fence 0 true s.
Proof.
  induction w as [|x w IH]; [reflexivity|]. simpl all_space. intros H.
  apply andb_true_iff in H as [H1 H2].
  change ((String x w ++ s)%string) with (String x (w ++ s)).
  rewrite sub_json_fence_step, H1. apply IH. exact H2.
Qed.

Lemma rstrip_is_empty s : all_space s = true -> rstrip s = "".
Proof.
  intros H. rewrite <- rstrip_empty in H. apply String.eqb_eq. exact H.
Qed.

Lemma rstrip_app_space s w : all_space w = true -> rstrip (s ++ w) = rstrip s.
Proof.
  intros H. induction s as [|x s IH]; [apply rstrip_is_empty; exact H|].
  change ((String x s ++ w)%string) with (String x (s ++ w)).
  simpl. rewrite IH. reflexivity.
Qed.

Lemma rstrip_app_keep a b : rstrip b = b -> b <> "" -> rstrip (a ++ b) = (a ++ b)%string.
Proof.
  intros Hb Hne. induction a as [|x a IH]; [exact Hb|].
  change ((String x a ++ b)%string) with (String x (a ++ b)).
  simpl. rewrite IH. destruct (a ++ b)%string eqn:E; [|reflexivity].
  destruct a as [|y a'].
  - change (b = "") in E. congruence.
  - change (String y (a' ++ b) = "")%string in E. discriminate E.
Qed.

(** A string that [strip] leaves alone is empty, or starts with a
    character that is not whitespace and is left alone by [rstrip]. *)
Lemma strip_fixed s :
  strip s = s ->
  s = "" \/ exists c r, s = String c r /\ is_space c = false /\ rstrip s = s.
Proof.
  unfold strip. intros H. destruct (lstrip_head s) as [E|(c & r & E & Hc)].
  - left. rewrite E in H. simpl in H. congruence.
  - right. rewrite E in H. destruct (rstrip_head c r Hc) as [r' Hr].
    rewrite Hr in H. subst s. exists c, r'. split; [reflexivity|]. split; [exact Hc|].
    rewrite <- Hr. apply rstrip_idem.
Qed.

Lemma json_fence_opening s :
  sub_json_fence 0 false ("```json" ++ s) = sub_json_fence 0 true s.
Proof. destruct s; reflexivity. Qed.

Lemma sub_json_fence_eat_nonspace c s :
  is_space c = false ->
  sub_json_fence 0 true (String c s) = sub_json_fence 0 false (String c s).
Proof. intros H. rewrite !sub_json_fence_step, H. reflexivity. Qed.

(** X10.  A response wrapped in a fence with the language tag comes out as
    its body: for a body without backtick that has no whitespace at either
    end, and any whitespace after the opening and before the closing
    fence. *)
Theorem clean_response_removes_fence (w1 body w2 : string) :
  all_space w1 = true -> all_space w2 = true ->
  no_backtick body = true -> strip body = body ->
  clean_response ("```json" ++ w1 ++ body ++ w2 ++ "```") = body.
Proof.
  intros Hw1 Hw2 Hnb Hbody. unfold clean_response.
  assert (Hstrip : strip ("```json" ++ w1 ++ body ++ w2 ++ "```")
                   = ("```json" ++ w1 ++ body ++ w2 ++ "```")%string).
  { unfold strip. change (lstrip ("```json" ++ w1 ++ body ++ w2 ++ "```"))
      with ("```json" ++ w1 ++ body ++ w2 ++ "```")%string.
    rewrite <- !string_app_assoc. apply rstrip_app_keep; [reflexivity|discriminate]. }
  rewrite Hstrip.
  rewrite json_fence_opening.
  rewrite (eat_spaces w1) by exact Hw1.
  destruct (strip_fixed body Hbody) as [->|(c & r & -> & Hc & Hr)].
  - change ("" ++ w2 ++ "```")%string with (w2 ++ "```")%string.
    rewrite (eat_spaces w2) by exact Hw2. reflexivity.
  - change ((String c r ++ w2 ++ "```")%string) with (String c (r ++ w2 ++ "```")).
    rewrite sub_json_fence_eat_nonspace by exact Hc.
    change (String c (r ++ w2 ++ "```")) with ((String c r ++ w2 ++ "```")%string).
    rewrite <- string_app_assoc.
    assert (Hnb' : no_backtick (String c r ++ w2) = true)
      by (apply no_backtick_app; [exact Hnb|apply all_space_no_backtick; exact Hw2]).
    rewrite sub_json_fence_id by (apply contains_json_fence_tail; exact Hnb').
    rewrite sub_trailing_fence_tail by exact Hnb'.
    unfold strip.
    change (lstrip (String c r ++ w2)) with
      (if is_space c then lstrip (r ++ w2) else (String c r ++ w2)%string).
    rewrite Hc. rewrite rstrip_app_space by exact Hw2. exact Hr.
Qed.

Lemma clean_response_removes_fence_witness :
  clean_response ("```json" ++ nl ++ "[{}]" ++ nl ++ "```") = "[{}]".
Proof.
  apply (clean_response_removes_fence nl "[{}]" nl); reflexivity.
Defined.

Lemma all_space_fence_tail a : all_space (a ++ "```") = false.
Proof.
  induction a as [|x a IH]; [reflexivity|].
  change ((String x a ++ "```")%string) with (String x (a ++ "```")).
  simpl. rewrite IH. apply andb_false_r.
Qed.

Lemma plain_fence_not_json a :
  no_backtick a = true ->
  contains "```json" ("```" ++ nl ++ a ++ "```") = false.
Proof.
  intros H.
  assert (Hn : no_backtick (nl ++ a) = true) by (apply no_backtick_app; [reflexivity|exact H]).
  apply contains_json_fence_tail in Hn. rewrite string_app_assoc in Hn.
  change (("```" ++ nl ++ a ++ "```")%string)
    with (String "`" (String "`" (String "`" (nl ++ a ++ "```")))).
  rewrite 3!contains_step, Hn.
  change ((nl ++ a ++ "```")%string) with (String (ascii_of_nat 10) (a ++ "```")).
  reflexivity.
Qed.

Lemma plain_fence_trailing a :
  no_backtick a = true ->
  sub_trailing_fence ("```" ++ nl ++ a ++ "```") = ("```" ++ nl ++ a)%string.
Proof.
  intros H.
  assert (Hn : no_backtick (nl ++ a) = true) by (apply no_backtick_app; [reflexivity|exact H]).
  apply sub_trailing_fence_tail in Hn. rewrite string_app_assoc in Hn.
  change (("```" ++ nl ++ a ++ "```")%string)
    with (String "`" (String "`" (String "`" (nl ++ a ++ "```")))).
  rewrite sub_trailing_fence_step.
  change (string_drop 3 (String "`" (String "`" (String "`" (nl ++ a ++ "```")))))
    with ((nl ++ a ++ "```")%string).
  rewrite <- (string_app_assoc nl a "```"), all_space_fence_tail, andb_false_r.
  rewrite (string_app_assoc nl a "```").
  rewrite 2!sub_trailing_fence_step.
  change ((nl ++ a ++ "```")%string) with (String (ascii_of_nat 10) (a ++ "```")).
  cbn [String.prefix andb]. 
  change (String (ascii_of_nat 10) (a ++ "```")) with ((nl ++ a ++ "```")%string).
  rewrite Hn. reflexivity.
Qed.

(** X11.  A fence without the language tag is removed at the end only:
    for a body without backtick, not empty and without whitespace at either
    end, the opening fence and the newline after it stay in front of the
    body. *)
Theorem clean_response_keeps_plain_opening_fence (body : string) :
  no_backtick body = true -> strip body = body -> body <> "" ->
  clean_response ("```" ++ nl ++ body ++ nl ++ "```") = ("```" ++ nl ++ body)%string.
Proof.
  intros Hnb Hbody Hne. unfold clean_response.
  destruct (strip_fixed body Hbody) as [->|(c & r & E & Hc & Hr)]; [congruence|].
  assert (Hstrip : strip ("```" ++ nl ++ body ++ nl ++ "```")
                   = ("```" ++ nl ++ body ++ nl ++ "```")%string).
  { unfold strip. change (lstrip ("```" ++ nl ++ body ++ nl ++ "```"))
      with ("```" ++ nl ++ body ++ nl ++ "```")%string.
    rewrite <- !string_app_assoc. apply rstrip_app_keep; [reflexivity|discriminate]. }
  rewrite Hstrip.
  assert (Hnb' : no_backtick (body ++ nl) = true)
    by (apply no_backtick_app; [exact Hnb|reflexivity]).
  rewrite <- (string_app_assoc body nl "```").
  rewrite sub_json_fence_id by (apply plain_fence_not_json; exact Hnb').
  rewrite plain_fence_trailing by exact Hnb'.
  unfold strip.
  change (lstrip ("```" ++ nl ++ body ++ nl)) with ("```" ++ nl ++ body ++ nl)%string.
  rewrite <- !string_app_assoc.
  rewrite rstrip_app_space by reflexivity.
  apply rstrip_app_keep; assumption.
Qed.

Lemma clean_response_keeps_plain_opening_fence_witness :
  clean_response ("```" ++ nl ++ "[{}]" ++ nl ++ "```") = ("```" ++ nl ++ "[{}]")%string.
Proof.
  apply (clean_response_keeps_plain_opening_fence "[{}]");
    [reflexivity|reflexivity|discriminate].
Defined.

(** ** The extractors *)

Lemma string_app_nil_r (a : string) : (a ++ "")%string = a.
Proof.
  induction a as [|x a IH]; [reflexivity|].
  change (String x (a ++ "") = String x a)%string. rewrite IH. reflexivity.
Qed.

Lemma add_pages_all_read pages : forall text_content,
  match all_read pages with
  | Some texts =>
      add_pages text_content pages = ((text_content ++ join_pages texts)%string, None)
  | None => exists t e, add_pages text_content pages = (t, Some e)
  end.
Proof.
  induction pages as [|[text|e] pages IH]; intros acc.
  - simpl. rewrite string_app_nil_r. reflexivity.
  - cbn [all_read add_pages]. specialize (IH (acc ++ text ++ nl)%string).
    destruct (all_read pages) as [texts|]; cbn [option_map].
    + rewrite IH. cbn [join_pages]. rewrite !string_app_assoc. reflexivity.
    + exact IH.
  - simpl. eauto.
Qed.

Lemma try_pages_all_read opened :
  snd (try_pages "" opened) =
    match opened with
    | Ok pages => option_map join_pages (all_read pages)
    | Raise _ => None
    end.
Proof.
  unfold try_pages. destruct opened as [pages|e]; [|reflexivity].
  pose proof (add_pages_all_read pages "") as H.
  destruct (all_read pages) as [texts|].
  - rewrite H. reflexivity.
  - destruct H as (t & e & ->). reflexivity.
Qed.

(** X12.  [_extract_from_pdf] reads one library only, PyMuPDF when it is
    imported and PyPDF2 otherwise, and returns a text only when the document
    opens and every page is read: the page texts, each followed by a
    newline.  Otherwise it raises: [NameError] with PyMuPDF imported, where
    the fallback cannot be reached, [ImportError] in the other cases. *)
Theorem extract_from_pdf_result (env : environment) (file_path : string) :
  _extract_from_pdf env file_path =
    match pdf_reader env with
    | Some reader =>
        match reader file_path with
        | Ok pages =>
            match all_read pages with
            | Some texts => Ok (join_pages texts)
            | None => Raise (pdf_failure env)
            end
        | Raise _ => Raise (pdf_failure env)
        end
    | None => Raise ImportError
    end.
Proof.
  unfold _extract_from_pdf, pdf_reader, pdf_failure, PYMUPDF_AVAILABLE,
    PYPDF2_AVAILABLE.
  destruct (pdf_libs env).
  - pose proof (try_pages_all_read (fitz_pages env file_path)) as H.
    destruct (try_pages "" (fitz_pages env file_path)) as [t returned].
    cbn [snd] in H. subst returned.
    destruct (fitz_pages env file_path) as [pages|e]; [|reflexivity].
    destruct (all_read pages); reflexivity.
  - cbn [bind]. rewrite try_pages_all_read.
    destruct (pypdf2_pages env file_path) as [pages|e]; [|reflexivity].
    destruct (all_read pages); reflexivity.
  - reflexivity.
Qed.

(** A document whose second page cannot be read gives no text at all, and
    PyPDF2 is not asked. *)
Example pdf_second_page_fails :
  _extract_from_pdf (two_page_environment (Raise LibraryError)) "plan.pdf"
    = Raise NameError /\
  extract_text_from_file (two_page_environment (Raise LibraryError)) "plan.pdf"
    = Ok "" /\
  _extract_from_pdf (two_page_environment (Ok "TOTAL")) "plan.pdf"
    = Ok ("PERMITS 10000" ++ nl ++ "TOTAL" ++ nl).
Proof. repeat split; reflexivity. Qed.

Lemma add_sheets_all_read sheets : forall all_text,
  match all_sheets_read sheets with
  | Some read => add_sheets all_text sheets = Ok (all_text ++ join_sheets read)%string
  | None => exists e, add_sheets all_text sheets = Raise e
  end.
Proof.
  induction sheets as [|[name [table|e]] sheets IH]; intros acc.
  - simpl. rewrite string_app_nil_r. reflexivity.
  - cbn [all_sheets_read add_sheets].
    specialize (IH (acc ++ ("Sheet: " ++ name ++ nl) ++ (table ++ nl ++ nl))%string).
    destruct (all_sheets_read sheets) as [read|]; cbn [option_map].
    + rewrite IH. cbn [join_sheets]. rewrite !string_app_assoc. reflexivity.
    + exact IH.
  - simpl. eauto.
Qed.

(** X13.  [_extract_from_excel] never raises and gives all or nothing: the
    text of all sheets, each as a line with its name and its table followed
    by two newlines, when the workbook opens and every sheet is read; the
    empty text otherwise, also when sheets before the failing one were
    read. *)
Theorem extract_from_excel_result (env : environment) (file_path : string) :
  _extract_from_excel env file_path =
    Ok match excel_sheets env file_path with
       | Ok sheets =>
           match all_sheets_read sheets with
           | Some read => join_sheets read
           | None => ""
           end
       | Raise _ => ""
       end.
Proof.
  unfold _extract_from_excel.
  destruct (excel_sheets env file_path) as [sheets|e]; [|reflexivity].
  cbn [bind]. pose proof (add_sheets_all_read sheets "") as H.
  destruct (all_sheets_read sheets) as [read|].
  - rewrite H. reflexivity.
  - destruct H as [e ->]. reflexivity.
Qed.

(** ** [process_document] *)

Lemma strip_nonspace_head c s :
  is_space c = false -> String.eqb (strip (String c s)) "" = false.
Proof.
  intros H. unfold strip. cbn [lstrip]. rewrite H.
  destruct (rstrip_head c s H) as [r ->]. reflexivity.
Qed.

(** X14.  When [process_document] returns a path, it is the output path
    given, or [COMPLETED_<stem>_breakdown.xlsx] when none is given; the
    extracted text was not blank, the structurer returned at least one
    item, and the file at that path is the filled copy of the template:
    every item is there, its float in column 2 and, when the description
    column is not column 2, its description in that column. *)
Theorem process_document_returns_path
  (build_prompt : string -> string) (json_loads : string -> outcome pyval)
  (str_other : pyval -> string) (env : environment)
  (model : option (string -> outcome string)) (writable : string -> bool)
  (fs : filesystem) (input_file template_path : string)
  (output_path : option string) (fs' : filesystem) (path : string) :
  process_document build_prompt json_loads str_other env model writable fs
    input_file template_path output_path = Ok (fs', Some path) ->
  path = chosen_output_path input_file output_path /\
  exists text tmpl out,
    extract_text_from_file env input_file = Ok text /\
    strip text <> "" /\
    parse_with_ai build_prompt json_loads str_other model text <> [] /\
    fs !! template_path = Some (Workbook tmpl) /\
    fs' = <[path := Workbook out]> fs /\
    forall i item,
      parse_with_ai build_prompt json_loads str_other model text !! i = Some item ->
      exists d f,
        item = line_item_dict d f /\
        value_at out (insert_row_of tmpl + i) 2 = PFloat f /\
        (line_item_col_idx (columns_of tmpl) <> 2 ->
         value_at out (insert_row_of tmpl + i)
                  (line_item_col_idx (columns_of tmpl)) = PStr d).
Proof.
  unfold process_document. fold (chosen_output_path input_file output_path).
  intros H. apply bind_Ok in H as (text & Hx & H).
  destruct (String.eqb_spec (strip text) "") as [|Hne]; [discriminate H|].
  pose proof (parse_with_ai_items build_prompt json_loads str_other model text)
    as Hitems.
  destruct (parse_with_ai build_prompt json_loads str_other model text)
    as [|item0 items0] eqn:Ep; [discriminate H|].
  destruct (populate_template writable fs (item0 :: items0) template_path
              (chosen_output_path input_file output_path)) as [fs1 ok] eqn:Epop.
  destruct ok; [|discriminate H]. injection H as <- <-.
  split; [reflexivity|].
  apply populate_template_true in Epop as (tmpl & out & Ht & _ & _ & Hf & ->).
  exists text, tmpl, out. rewrite Ep. split; [exact Hx|]. split; [exact Hne|].
  split; [intros Hnil; discriminate Hnil|]. split; [exact Ht|].
  split; [reflexivity|].
  apply fill_worksheet_spec in Hf as (_ & _ & Hv).
  intros i item Hi.
  assert (Hin : trimmed_item item).
  { rewrite List.Forall_forall in Hitems. apply Hitems.
    apply list_elem_of_In. eapply list_elem_of_lookup_2. exact Hi. }
  destruct Hin as (d & f & -> & _).
  destruct (Hv i _ Hi) as (d' & a' & f' & D & A & F & V & W).
  injection D as <-. injection A as <-. injection F as <-.
  exists d, f. auto.
Qed.

(** X15.  [process_document] raises exactly when the input file is
    missing, and then [FileNotFoundError].  For a file that exists it
    returns; when the extracted text is blank or the structurer returns no
    item it returns [None] and the file system is as before. *)
Theorem process_document_gives_up
  (build_prompt : string -> string) (json_loads : string -> outcome pyval)
  (str_other : pyval -> string) (env : environment)
  (model : option (string -> outcome string)) (writable : string -> bool)
  (fs : filesystem) (input_file template_path : string)
  (output_path : option string) :
  (path_exists env input_file = false ->
   process_document build_prompt json_loads str_other env model writable fs
     input_file template_path output_path = Raise FileNotFoundError) /\
  (path_exists env input_file = true ->
   (exists fs' result,
      process_document build_prompt json_loads str_other env model writable fs
        input_file template_path output_path = Ok (fs', result)) /\
   forall text,
     extract_text_from_file env input_file = Ok text ->
     strip text = "" \/
     parse_with_ai build_prompt json_loads str_other model text = [] ->
     process_document build_prompt json_loads str_other env model writable fs
       input_file template_path output_path = Ok (fs, None)).
Proof.
  unfold process_document. split.
  - intros H. unfold extract_text_from_file. rewrite H. reflexivity.
  - intros H.
    assert (Hx : exists text, extract_text_from_file env input_file = Ok text).
    { unfold extract_text_from_file. rewrite H. cbn [negb].
      destruct (if String.eqb _ _ then _ else _); eauto. }
    split.
    + destruct Hx as [text ->]. cbn [bind].
      destruct (String.eqb (strip text) ""); [eauto|].
      destruct (parse_with_ai _ _ _ _ _); [eauto|].
      destruct (populate_template _ _ _ _ _). eauto.
    + intros text -> Hor. cbn [bind].
      destruct (String.eqb_spec (strip text) "") as [|Hne]; [reflexivity|].
      destruct Hor as [Hs|Hp]; [congruence|]. rewrite Hp. reflexivity.
Qed.

Lemma process_document_gives_up_witness :
  process_document (fun t => t) (decodes_to (PList [])) no_str
    (bare_environment true) (model_answers "[]") any_path_writable
    (one_template header_in_a1) "notes.txt" "template.xlsx" None
  = Ok (one_template header_in_a1, None).
Proof.
  apply (proj2 (proj2 (process_document_gives_up (fun t => t)
           (decodes_to (PList [])) no_str (bare_environment true)
           (model_answers "[]") any_path_writable (one_template header_in_a1)
           "notes.txt" "template.xlsx" None) eq_refl) "").
  - reflexivity.
  - left. reflexivity.
Defined.

(** X16.  An image does not stop the pipeline when OCR is not available:
    the bracketed message is the text the structurer gets, and what it
    makes of the message is written like the items of a document. *)
Theorem ocr_message_reaches_structurer
  (build_prompt : string -> string) (json_loads : string -> outcome pyval)
  (str_other : pyval -> string) (env : environment)
  (model : option (string -> outcome string)) (writable : string -> bool)
  (fs : filesystem) (input_file template_path : string)
  (output_path : option string) :
  path_exists env input_file = true ->
  in_list (lower (path_suffix input_file)) image_extensions = true ->
  PYTESSERACT_AVAILABLE env = false ->
  extract_text_from_file env input_file = Ok (ocr_unavailable_message input_file) /\
  process_document build_prompt json_loads str_other env model writable fs
    input_file template_path output_path =
    match parse_with_ai build_prompt json_loads str_other model
            (ocr_unavailable_message input_file) with
    | [] => Ok (fs, None)
    | items =>
        let '(fs', success) :=
          populate_template writable fs items template_path
            (chosen_output_path input_file output_path) in
        Ok (fs', if success then Some (chosen_output_path input_file output_path)
                 else None)
    end.
Proof.
  intros Hex Himg Hocr.
  assert (Hx : extract_text_from_file env input_file
               = Ok (ocr_unavailable_message input_file)).
  { unfold extract_text_from_file, image_extensions in *. rewrite Hex. cbn [negb].
    rewrite (in_list_not_pdf _ _ Himg eq_refl), Himg.
    unfold _extract_from_image. rewrite Hocr. reflexivity. }
  split; [exact Hx|].
  unfold process_document. fold (chosen_output_path input_file output_path).
  rewrite Hx. cbn [bind].
  change (ocr_unavailable_message input_file)
    with (String "[" ("OCR NOT AVAILABLE] Image file: " ++ path_name input_file ++
          ". Please convert to PDF or use text-based documents for processing.")).
  rewrite strip_nonspace_head by reflexivity.
  destruct (parse_with_ai _ _ _ _ _); reflexivity.
Qed.

Lemma ocr_message_reaches_structurer_witness :
  extract_text_from_file (bare_environment true) "site/scan.PNG"
    = Ok (ocr_unavailable_message "site/scan.PNG").
Proof.
  apply (ocr_message_reaches_structurer (fun t => t) (decodes_to (PList []))
           no_str (bare_environment true) None any_path_writable
           (one_template header_in_a1) "site/scan.PNG" "template.xlsx" None);
    reflexivity.
Defined.

Lemma process_document_returns_path_witness :
  let env := two_page_environment (Ok "TOTAL") in
  let fs := one_template header_in_a1 in
  let path := "COMPLETED_plan_breakdown.xlsx" in
  let fs' := <[path := Workbook (filled header_in_a1 [line_item_dict "A" (float_of_Z 1)])]> fs in
  path = chosen_output_path "docs/plan.pdf" None /\
  exists text tmpl out,
    extract_text_from_file env "docs/plan.pdf" = Ok text /\
    strip text <> "" /\
    parse_with_ai (fun t => t) (decodes_to (PList [entry_a])) no_str
      (model_answers "[...]") text <> [] /\
    fs !! "template.xlsx" = Some (Workbook tmpl) /\
    fs' = <[path := Workbook out]> fs /\
    forall i item,
      parse_with_ai (fun t => t) (decodes_to (PList [entry_a])) no_str
        (model_answers "[...]") text !! i = Some item ->
      exists d f,
        item = line_item_dict d f /\
        value_at out (insert_row_of tmpl + i) 2 = PFloat f /\
        (line_item_col_idx (columns_of tmpl) <> 2 ->
         value_at out (insert_row_of tmpl + i)
                  (line_item_col_idx (columns_of tmpl)) = PStr d).
Proof.
  intros env fs path fs'.
  apply (process_document_returns_path (fun t => t) (decodes_to (PList [entry_a]))
           no_str env (model_answers "[...]") any_path_writable fs
           "docs/plan.pdf" "template.xlsx" None fs' path).
  vm_compute. reflexivity.
Defined.

(** ** [__init__] *)

(** X17.  There is a model exactly when the Gemini library is imported and
    a non-empty key is given or found in the environment; the key given
    takes precedence over the one of the environment.  Without a model
    [parse_with_ai] returns the empty list for every text, and
    [process_document] returns [None] for every file that exists and leaves
    the file system as it is. *)
Theorem model_needs_library_and_key
  (GOOGLE_AI_AVAILABLE : bool) (api_key getenv_key : option string)
  (client : string -> string -> outcome string) :
  (init_model GOOGLE_AI_AVAILABLE api_key getenv_key client = None <->
   GOOGLE_AI_AVAILABLE = false \/ (truthy api_key = false /\ truthy getenv_key = false)) /\
  (forall key, GOOGLE_AI_AVAILABLE = true -> api_key = Some key -> key <> "" ->
     init_model GOOGLE_AI_AVAILABLE api_key getenv_key client = Some (client key)) /\
  (forall key, GOOGLE_AI_AVAILABLE = true -> truthy api_key = false ->
     getenv_key = Some key -> key <> "" ->
     init_model GOOGLE_AI_AVAILABLE api_key getenv_key client = Some (client key)) /\
  (init_model GOOGLE_AI_AVAILABLE api_key getenv_key client = None ->
   forall build_prompt json_loads str_other,
     (forall text,
        parse_with_ai build_prompt json_loads str_other
          (init_model GOOGLE_AI_AVAILABLE api_key getenv_key client) text = []) /\
     (forall env writable (fs : filesystem) input_file template_path output_path,
        path_exists env input_file = true ->
        process_document build_prompt json_loads str_other env
          (init_model GOOGLE_AI_AVAILABLE api_key getenv_key client)
          writable fs input_file template_path output_path = Ok (fs, None))).
Proof.
  split; [|split; [|split]].
  - unfold init_model. destruct GOOGLE_AI_AVAILABLE; cbn [negb].
    + destruct (truthy api_key) eqn:Ea.
      * rewrite Ea. destruct api_key as [k|]; [|discriminate Ea].
        split; [discriminate|]. intros [H|[H _]]; discriminate H.
      * destruct (truthy getenv_key) eqn:Ee.
        -- destruct getenv_key as [k|]; [|discriminate Ee].
           split; [discriminate|]. intros [H|[_ H]]; discriminate H.
        -- split; [auto|]. intros _. destruct getenv_key; reflexivity.
    + split; [auto|reflexivity].
  - intros key -> -> Hk.
    assert (Ht : truthy (Some key) = true)
      by (apply String.eqb_neq in Hk; simpl; rewrite Hk; reflexivity).
    unfold init_model. rewrite !Ht. reflexivity.
  - intros key -> Ha -> Hk.
    assert (Ht : truthy (Some key) = true)
      by (apply String.eqb_neq in Hk; simpl; rewrite Hk; reflexivity).
    unfold init_model. rewrite Ha, Ht. reflexivity.
  - intros -> build_prompt json_loads str_other. split; [reflexivity|].
    intros env writable fs input_file template_path output_path Hex.
    unfold process_document, extract_text_from_file. rewrite Hex. cbn [negb].
    destruct (if String.eqb _ _ then _ else _) as [text|]; cbn [bind];
      destruct (String.eqb _ ""); reflexivity.
Qed.

Lemma model_needs_library_and_key_witness :
  init_model true (Some "") (Some "key-of-the-environment") echo_client
    = Some (echo_client "key-of-the-environment").
Proof.
  apply (proj1 (proj2 (proj2 (model_needs_library_and_key true (Some "")
           (Some "key-of-the-environment") echo_client)))
           "key-of-the-environment");
    [reflexivity|reflexivity|reflexivity|discriminate].
Defined.

(** ** The manual entry form *)





Example manual_form_sample :
  manual_data_loop [] sample_form = [permits; excavation].
Proof. vm_compute. reflexivity. Qed.
